(** * Verification model of the runway back end (Go)

    Shallow embedding of the parts of [models], [services] and [handlers]
    that decode the upstream feeds, map them to responses, filter reviews
    by a recency window, cache the catalog in a file, and serve
    [/app/reviews]. *)

From Stdlib Require Import ZArith Lia Bool Ascii.
From stdpp Require Import base gmap strings list.
Import ListNotations.
Open Scope Z_scope.

(* ------------------------------------------------------------------ *)
(** ** Go results: a value or an error (the [(T, error)] pair)          *)
(* ------------------------------------------------------------------ *)

Inductive result (A : Type) : Type :=
| Ok (a : A)
| Error (msg : string).
Arguments Ok {A} a.
Arguments Error {A} msg.

Definition is_error {A} (r : result A) : bool :=
  match r with Ok _ => false | Error _ => true end.

(* ------------------------------------------------------------------ *)
(** ** Characters and strings (Go strings are byte strings)             *)
(* ------------------------------------------------------------------ *)

Definition digit_val (c : ascii) : option Z :=
  let n := Z.of_nat (nat_of_ascii c) - 48 in
  if (0 <=? n) && (n <=? 9) then Some n else None.

Definition isDigit (c : ascii) : bool :=
  match digit_val c with Some _ => true | None => false end.

Fixpoint digits_value (acc : Z) (s : string) : option Z :=
  match s with
  | EmptyString => Some acc
  | String c s' =>
      match digit_val c with
      | Some d => digits_value (acc * 10 + d) s'
      | None => None
      end
  end.

(** [strconv.Atoi] on a 64-bit platform: an optional sign followed by at
    least one decimal digit, no underscores (base 10), and the value in
    the range of [int]; anything else is a syntax or range error.  The
    fast path for strings shorter than 19 bytes and the [ParseInt] slow
    path accept the same strings with the same values. *)
Definition Atoi (s : string) : result Z :=
  let '(neg, body) :=
    match s with
    | String "-" b => (true, b)
    | String "+" b => (false, b)
    | _ => (false, s)
    end in
  match body with
  | EmptyString => Error "strconv.Atoi: invalid syntax"
  | _ =>
      match digits_value 0 body with
      | None => Error "strconv.Atoi: invalid syntax"
      | Some u =>
          let v := if neg then - u else u in
          if (- 2 ^ 63 <=? v) && (v <=? 2 ^ 63 - 1) then Ok v
          else Error "strconv.Atoi: value out of range"
      end
  end.


(* ------------------------------------------------------------------ *)
(** ** [time.Parse(time.RFC3339, s)]                                      *)
(* ------------------------------------------------------------------ *)

(** Instants are nanoseconds since the Unix epoch (wall clock).  Go
    compares a parsed time (which carries no monotonic reading) with any
    other time by its wall clock, so [Time.After] is [>] on these values. *)

Definition opt_bind {A B} (o : option A) (f : A -> option B) : option B :=
  match o with Some a => f a | None => None end.
Notation "'let?' x := o 'in' k" := (opt_bind o (fun x => k))
  (at level 200, x name, o at level 100, k at level 200).

(** [getnum]: one or two leading digits; [fixed] demands two. *)
Definition getnum (s : string) (fixed : bool) : option (Z * string) :=
  match s with
  | String c0 rest =>
      match digit_val c0 with
      | None => None
      | Some d0 =>
          match rest with
          | String c1 rest' =>
              match digit_val c1 with
              | Some d1 => Some (d0 * 10 + d1, rest')
              | None => if fixed then None else Some (d0, rest)
              end
          | EmptyString => if fixed then None else Some (d0, rest)
          end
      end
  | EmptyString => None
  end.

(** [skip] of a one-byte literal of the layout. *)
Definition skip1 (lit : ascii) (s : string) : option string :=
  match s with
  | String c rest => if Ascii.eqb c lit then Some rest else None
  | EmptyString => None
  end.

(** [stdLongYear]: exactly four digits. *)
Definition parse_year (s : string) : option (Z * string) :=
  match s with
  | String a (String b (String c (String d rest))) =>
      let? y := digits_value 0 (String a (String b (String c (String d EmptyString)))) in
      Some (y, rest)
  | _ => None
  end.

Definition isLeap (y : Z) : bool :=
  (Z.modulo y 4 =? 0) && (negb (Z.modulo y 100 =? 0) || (Z.modulo y 400 =? 0)).

Definition daysIn (m y : Z) : Z :=
  if m =? 2 then (if isLeap y then 29 else 28)
  else if (m =? 4) || (m =? 6) || (m =? 9) || (m =? 11) then 30 else 31.

(** Days from 1970-01-01 to the given proleptic Gregorian date. *)
Definition days_from_civil (y m d : Z) : Z :=
  let y' := if m <=? 2 then y - 1 else y in
  let era := Z.div y' 400 in
  let yoe := y' - era * 400 in
  let mp := Z.modulo (m + 9) 12 in
  let doy := (153 * mp + 2) / 5 + d - 1 in
  let doe := yoe * 365 + yoe / 4 - yoe / 100 + doy in
  era * 146097 + doe - 719468.

(** Splits the leading run of digits off a string. *)
Fixpoint span_digits (s : string) : string * string :=
  match s with
  | String c rest =>
      if isDigit c then let '(ds, r) := span_digits rest in (String c ds, r)
      else (EmptyString, s)
  | EmptyString => (EmptyString, EmptyString)
  end.

(** Fractional second after the seconds (the layout has none): a ['.'] or
    [','] and digits; the first nine digits count, the rest are dropped. *)
Definition parse_frac (s : string) : Z * string :=
  match s with
  | String sep (String c1 rest) =>
      if (Ascii.eqb sep "." || Ascii.eqb sep ",") && isDigit c1 then
        let '(ds, r) := span_digits (String c1 rest) in
        let used := String.substring 0 9 ds in
        match digits_value 0 used with
        | Some v => (v * 10 ^ (9 - Z.of_nat (String.length used)), r)
        | None => (0, s)
        end
      else (0, s)
  | _ => (0, s)
  end.

(** [Z07:00]: either ["Z"] or a sign, two digits, [':'], two digits.
    The result is the zone offset in seconds east of UTC. *)
Definition parse_zone (s : string) : option (Z * string) :=
  match s with
  | String "Z" rest => Some (0, rest)
  | String sg (String h1 (String h2 (String col (String m1 (String m2 rest))))) =>
      if negb (Ascii.eqb col ":") then None else
      let? hr := getnum (String h1 (String h2 EmptyString)) true in
      let? mm := getnum (String m1 (String m2 EmptyString)) true in
      if (24 <? fst hr) || (60 <? fst mm) then None else
      let off := (fst hr * 60 + fst mm) * 60 in
      if Ascii.eqb sg "+" then Some (off, rest)
      else if Ascii.eqb sg "-" then Some (- off, rest)
      else None
  | _ => None
  end.

(** The layout ["2006-01-02T15:04:05Z07:00"] element by element. *)
Definition time_Parse_RFC3339 (v : string) : option Z :=
  let? y := parse_year v in
  let? v1 := skip1 "-" (snd y) in
  let? mo := getnum v1 true in
  if (fst mo <=? 0) || (12 <? fst mo) then None else
  let? v2 := skip1 "-" (snd mo) in
  let? d := getnum v2 true in
  let? v3 := skip1 "T" (snd d) in
  let? h := getnum v3 false in
  if (fst h <? 0) || (24 <=? fst h) then None else
  let? v4 := skip1 ":" (snd h) in
  let? mi := getnum v4 true in
  if (fst mi <? 0) || (60 <=? fst mi) then None else
  let? v5 := skip1 ":" (snd mi) in
  let? se := getnum v5 true in
  if (fst se <? 0) || (60 <=? fst se) then None else
  let '(nsec, v6) := parse_frac (snd se) in
  let? z := parse_zone v6 in
  match snd z with
  | EmptyString =>
      if (fst d <? 1) || (daysIn (fst mo) (fst y) <? fst d) then None else
      let secs := days_from_civil (fst y) (fst mo) (fst d) * 86400
                  + fst h * 3600 + fst mi * 60 + fst se - fst z in
      Some (secs * 1000000000 + nsec)
  | _ => None
  end.


(* ------------------------------------------------------------------ *)
(** ** JSON values and Go's [encoding/json] decoding                     *)
(* ------------------------------------------------------------------ *)

(** A syntactically valid JSON document (Go validates the whole input
    before decoding, so malformed text is an error before any decoding;
    it is represented in the file store below, not here).  Strings are
    the bytes of the string after escape processing, which need not be
    valid UTF-8; see [utf8_sanitize]. *)
#[warnings="-register-all"]
Inductive json : Type :=
| JNull
| JBool (b : bool)
| JNumber (lit : string)
| JString (s : string)
| JArray (xs : list json)
| JObject (kvs : list (string * json)).

Definition ascii_lower (c : ascii) : ascii :=
  let n := nat_of_ascii c in
  if (65 <=? n)%nat && (n <=? 90)%nat then ascii_of_nat (n + 32) else c.

(** Object keys select struct fields as Go's [encoding/json] does: the
    key and the field name agree rune by rune up to Unicode simple case
    folding.  The field names of this program are ASCII, and the only
    runes outside ASCII whose fold class holds an ASCII letter are
    U+212A (Kelvin sign, with [k]) and U+017F (long s, with [s]), whose
    UTF-8 encodings are E2 84 AA and C5 BF. *)
Fixpoint fold_eqb (a b : string) : bool :=
  match b with
  | EmptyString => match a with EmptyString => true | String _ _ => false end
  | String y b' =>
      match a with
      | EmptyString => false
      | String x a' =>
          if (nat_of_ascii x <? 128)%nat then Ascii.eqb (ascii_lower x) (ascii_lower y) && fold_eqb a' b'
          else if Ascii.eqb (ascii_lower y) "k" then
            match a' with
            | String x1 (String x2 a'') =>
                (nat_of_ascii x =? 226)%nat && (nat_of_ascii x1 =? 132)%nat && (nat_of_ascii x2 =? 170)%nat
                && fold_eqb a'' b'
            | _ => false
            end
          else if Ascii.eqb (ascii_lower y) "s" then
            match a' with
            | String x1 a'' => (nat_of_ascii x =? 197)%nat && (nat_of_ascii x1 =? 191)%nat && fold_eqb a'' b'
            | _ => false
            end
          else false
      end
  end.

(** [utf8.DecodeRune]'s acceptance of a 2-, 3- or 4-byte sequence
    (no overlong forms, no surrogates, nothing above U+10FFFF). *)
Definition in_range (c : ascii) (lo hi : nat) : bool :=
  (lo <=? nat_of_ascii c)%nat && (nat_of_ascii c <=? hi)%nat.
Definition utf8_cont (c : ascii) : bool := in_range c 128 191.
Definition utf8_2 (b0 b1 : ascii) : bool := in_range b0 194 223 && utf8_cont b1.
Definition utf8_3 (b0 b1 b2 : ascii) : bool :=
  ((((nat_of_ascii b0 =? 224)%nat && in_range b1 160 191)
    || (in_range b0 225 236 && utf8_cont b1)
    || ((nat_of_ascii b0 =? 237)%nat && in_range b1 128 159)
    || (in_range b0 238 239 && utf8_cont b1)) && utf8_cont b2).
Definition utf8_4 (b0 b1 b2 b3 : ascii) : bool :=
  ((((nat_of_ascii b0 =? 240)%nat && in_range b1 144 191)
    || (in_range b0 241 243 && utf8_cont b1)
    || ((nat_of_ascii b0 =? 244)%nat && in_range b1 128 143)) && utf8_cont b2 && utf8_cont b3).

(** U+FFFD, EF BF BD. *)
Definition replacement_char : string :=
  String (ascii_of_nat 239) (String (ascii_of_nat 191) (String (ascii_of_nat 189) EmptyString)).

(** Go's JSON string handling of invalid UTF-8: decoding ([unquote]) and
    encoding ([appendString]) both read the bytes with
    [utf8.DecodeRune] and replace each byte that starts no valid
    sequence ([RuneError] of width 1) by U+FFFD. *)
Fixpoint utf8_sanitize (s : string) : string :=
  match s with
  | EmptyString => EmptyString
  | String b0 s1 =>
      if (nat_of_ascii b0 <? 128)%nat then String b0 (utf8_sanitize s1) else
      let bad := replacement_char +:+ utf8_sanitize s1 in
      match s1 with
      | EmptyString => bad
      | String b1 s2 =>
          if utf8_2 b0 b1 then String b0 (String b1 (utf8_sanitize s2)) else
          match s2 with
          | EmptyString => bad
          | String b2 s3 =>
              if utf8_3 b0 b1 b2 then String b0 (String b1 (String b2 (utf8_sanitize s3))) else
              match s3 with
              | EmptyString => bad
              | String b3 s4 =>
                  if utf8_4 b0 b1 b2 b3
                  then String b0 (String b1 (String b2 (String b3 (utf8_sanitize s4)))) else bad
              end
          end
      end
  end.

(** A JSON string as Go writes it for a Go string. *)
Definition json_str (s : string) : json := JString (utf8_sanitize s).

(** Go decodes into an existing value: keys absent from the object leave
    the field as it was, [null] leaves strings and structs unchanged and
    sets slices to nil.  A type mismatch makes [Unmarshal] fail; Go keeps
    decoding after it but every caller here discards the value then. *)
Definition decoder (T : Type) : Type := json -> T -> option T.

Definition dec_string : decoder string := fun j cur =>
  match j with
  | JString s => Some (utf8_sanitize s)
  | JNull => Some cur
  | _ => None
  end.

Fixpoint lookup_field {T} (k : string) (fs : list (string * decoder T)) : option (decoder T) :=
  match fs with
  | [] => None
  | (n, d) :: fs' => if fold_eqb k n then Some d else lookup_field k fs'
  end.

(** Keys in document order; unknown keys are ignored; a repeated key
    decodes again into the field. *)
Fixpoint dec_fields {T} (fs : list (string * decoder T)) (kvs : list (string * json)) (cur : T) : option T :=
  match kvs with
  | [] => Some cur
  | (k, v) :: kvs' =>
      match lookup_field k fs with
      | Some d => let? cur' := d v cur in dec_fields fs kvs' cur'
      | None => dec_fields fs kvs' cur
      end
  end.

Definition dec_struct {T} (fs : list (string * decoder T)) : decoder T := fun j cur =>
  match j with
  | JNull => Some cur
  | JObject kvs => dec_fields fs kvs cur
  | _ => None
  end.

(** Array into slice: element [i] is decoded into the existing element
    [i] when there is one, else into a zero value; the result has the
    array's length. *)
Fixpoint dec_elems {T} (d : decoder T) (zero : T) (xs : list json) (cur : list T) : option (list T) :=
  match xs with
  | [] => Some []
  | x :: xs' =>
      let '(c, rest) := match cur with [] => (zero, []) | c :: r => (c, r) end in
      let? v := d x c in
      let? vs := dec_elems d zero xs' rest in
      Some (v :: vs)
  end.

(** A Go slice whose nil-ness is observable (it is encoded again):
    [None] is the nil slice. *)
Definition slice (T : Type) : Type := option (list T).
Definition slice_elems {T} (xs : slice T) : list T :=
  match xs with None => [] | Some l => l end.

(** Array or [null] into a slice: [null] gives the nil slice, an array
    a non-nil slice (an empty one for [[]]). *)
Definition dec_goslice {T} (d : decoder T) (zero : T) : decoder (slice T) := fun j cur =>
  match j with
  | JNull => Some None
  | JArray xs => option_map Some (dec_elems d zero xs (slice_elems cur))
  | _ => None
  end.

(** The same, for a slice that is only read element by element. *)
Definition dec_slice {T} (d : decoder T) (zero : T) : decoder (list T) := fun j cur =>
  match j with
  | JNull => Some []
  | JArray xs => dec_elems d zero xs cur
  | _ => None
  end.

(** A field of a struct: decode into the current field value, then store. *)
Definition fld {T F} (get : T -> F) (set : T -> F -> T) (d : decoder F) : decoder T :=
  fun j v => let? x := d j (get v) in Some (set v x).

(* ------------------------------------------------------------------ *)
(** ** The catalog model ([models.App] and its parts)                    *)
(* ------------------------------------------------------------------ *)

Record LabelField := mkLabelField { LabelField_Label : string }.
Definition LabelField_zero := mkLabelField "".
Definition dec_LabelField : decoder LabelField := dec_struct
  [("label", fld LabelField_Label (fun _ x => mkLabelField x) dec_string)].

Record ImageAttributes := mkImage_Attributes { Image_Height : string }.
Record Image := mkImage { Image_Label : string; Image_Attributes : ImageAttributes }.
Definition Image_zero := mkImage "" (mkImage_Attributes "").
Definition dec_Image_Attributes : decoder ImageAttributes := dec_struct
  [("height", fld Image_Height (fun _ x => mkImage_Attributes x) dec_string)].
Definition dec_Image : decoder Image := dec_struct
  [("label", fld Image_Label (fun v x => mkImage x (Image_Attributes v)) dec_string);
   ("attributes", fld Image_Attributes (fun v x => mkImage (Image_Label v) x) dec_Image_Attributes)].

Record PriceAttributes := mkPrice_Attributes { Price_Amount : string; Price_Currency : string }.
Record Price := mkPrice { Price_Label : string; Price_Attributes : PriceAttributes }.
Definition Price_zero := mkPrice "" (mkPrice_Attributes "" "").
Definition dec_Price_Attributes : decoder PriceAttributes := dec_struct
  [("amount", fld Price_Amount (fun v x => mkPrice_Attributes x (Price_Currency v)) dec_string);
   ("currency", fld Price_Currency (fun v x => mkPrice_Attributes (Price_Amount v) x) dec_string)].
Definition dec_Price : decoder Price := dec_struct
  [("label", fld Price_Label (fun v x => mkPrice x (Price_Attributes v)) dec_string);
   ("attributes", fld Price_Attributes (fun v x => mkPrice (Price_Label v) x) dec_Price_Attributes)].

Record ContentTypeAttributes := mkContentType_Attributes { ContentType_Term : string; ContentType_Label : string }.
Record ContentType := mkContentType { ContentType_Attributes : ContentTypeAttributes }.
Definition ContentType_zero := mkContentType (mkContentType_Attributes "" "").
Definition dec_ContentType_Attributes : decoder ContentTypeAttributes := dec_struct
  [("term", fld ContentType_Term (fun v x => mkContentType_Attributes x (ContentType_Label v)) dec_string);
   ("label", fld ContentType_Label (fun v x => mkContentType_Attributes (ContentType_Term v) x) dec_string)].
Definition dec_ContentType : decoder ContentType := dec_struct
  [("attributes", fld ContentType_Attributes (fun _ x => mkContentType x) dec_ContentType_Attributes)].

Record AppIDAttributes := mkAppID_Attributes { AppID_ID : string; AppID_BundleID : string }.
Record AppID := mkAppID { AppID_Label : string; AppID_Attributes : AppIDAttributes }.
Definition AppID_zero := mkAppID "" (mkAppID_Attributes "" "").
Definition dec_AppID_Attributes : decoder AppIDAttributes := dec_struct
  [("im:id", fld AppID_ID (fun v x => mkAppID_Attributes x (AppID_BundleID v)) dec_string);
   ("im:bundleId", fld AppID_BundleID (fun v x => mkAppID_Attributes (AppID_ID v) x) dec_string)].
Definition dec_AppID : decoder AppID := dec_struct
  [("label", fld AppID_Label (fun v x => mkAppID x (AppID_Attributes v)) dec_string);
   ("attributes", fld AppID_Attributes (fun v x => mkAppID (AppID_Label v) x) dec_AppID_Attributes)].

Record ArtistAttributes := mkArtist_Attributes { Artist_Href : string }.
Record Artist := mkArtist { Artist_Label : string; Artist_Attributes : ArtistAttributes }.
Definition Artist_zero := mkArtist "" (mkArtist_Attributes "").
Definition dec_Artist_Attributes : decoder ArtistAttributes := dec_struct
  [("href", fld Artist_Href (fun _ x => mkArtist_Attributes x) dec_string)].
Definition dec_Artist : decoder Artist := dec_struct
  [("label", fld Artist_Label (fun v x => mkArtist x (Artist_Attributes v)) dec_string);
   ("attributes", fld Artist_Attributes (fun v x => mkArtist (Artist_Label v) x) dec_Artist_Attributes)].

Record CategoryAttributes := mkCategory_Attributes
  { Category_ID : string; Category_Term : string; Category_Scheme : string; Category_Label : string }.
Record Category := mkCategory { Category_Attributes : CategoryAttributes }.
Definition Category_zero := mkCategory (mkCategory_Attributes "" "" "" "").
Definition dec_Category_Attributes : decoder CategoryAttributes := dec_struct
  [("im:id", fld Category_ID (fun v x => mkCategory_Attributes x (Category_Term v) (Category_Scheme v) (Category_Label v)) dec_string);
   ("term", fld Category_Term (fun v x => mkCategory_Attributes (Category_ID v) x (Category_Scheme v) (Category_Label v)) dec_string);
   ("scheme", fld Category_Scheme (fun v x => mkCategory_Attributes (Category_ID v) (Category_Term v) x (Category_Label v)) dec_string);
   ("label", fld Category_Label (fun v x => mkCategory_Attributes (Category_ID v) (Category_Term v) (Category_Scheme v) x) dec_string)].
Definition dec_Category : decoder Category := dec_struct
  [("attributes", fld Category_Attributes (fun _ x => mkCategory x) dec_Category_Attributes)].

Record ReleaseDateAttributes := mkReleaseDate_Attributes { ReleaseDate_Attr_Label : string }.
Record ReleaseDate := mkReleaseDate { ReleaseDate_Label : string; ReleaseDate_Attributes : ReleaseDateAttributes }.
Definition ReleaseDate_zero := mkReleaseDate "" (mkReleaseDate_Attributes "").
Definition dec_ReleaseDate_Attributes : decoder ReleaseDateAttributes := dec_struct
  [("label", fld ReleaseDate_Attr_Label (fun _ x => mkReleaseDate_Attributes x) dec_string)].
Definition dec_ReleaseDate : decoder ReleaseDate := dec_struct
  [("label", fld ReleaseDate_Label (fun v x => mkReleaseDate x (ReleaseDate_Attributes v)) dec_string);
   ("attributes", fld ReleaseDate_Attributes (fun v x => mkReleaseDate (ReleaseDate_Label v) x) dec_ReleaseDate_Attributes)].

Record LinkAttributes := mkLink_Attributes
  { Link_Rel : string; Link_Type : string; Link_Href : string;
    Link_Title : string; Link_IMDuration : string; Link_IMAssetType : string }.
Record Link := mkLink { Link_Attributes : LinkAttributes }.
Definition Link_zero := mkLink (mkLink_Attributes "" "" "" "" "" "").
Definition dec_Link_Attributes : decoder LinkAttributes := dec_struct
  [("rel", fld Link_Rel (fun v x => mkLink_Attributes x (Link_Type v) (Link_Href v) (Link_Title v) (Link_IMDuration v) (Link_IMAssetType v)) dec_string);
   ("type", fld Link_Type (fun v x => mkLink_Attributes (Link_Rel v) x (Link_Href v) (Link_Title v) (Link_IMDuration v) (Link_IMAssetType v)) dec_string);
   ("href", fld Link_Href (fun v x => mkLink_Attributes (Link_Rel v) (Link_Type v) x (Link_Title v) (Link_IMDuration v) (Link_IMAssetType v)) dec_string);
   ("title", fld Link_Title (fun v x => mkLink_Attributes (Link_Rel v) (Link_Type v) (Link_Href v) x (Link_IMDuration v) (Link_IMAssetType v)) dec_string);
   ("im:duration", fld Link_IMDuration (fun v x => mkLink_Attributes (Link_Rel v) (Link_Type v) (Link_Href v) (Link_Title v) x (Link_IMAssetType v)) dec_string);
   ("im:assetType", fld Link_IMAssetType (fun v x => mkLink_Attributes (Link_Rel v) (Link_Type v) (Link_Href v) (Link_Title v) (Link_IMDuration v) x) dec_string)].
Definition dec_Link : decoder Link := dec_struct
  [("attributes", fld Link_Attributes (fun _ x => mkLink x) dec_Link_Attributes)].

(** [models.App].  [LinkRaw] is the [json.RawMessage] of the ["link"] key
    ([None] for a nil message); [LinkSingle] and [LinkMulti] are tagged
    ["-"] and filled by [App.UnmarshalJSON]. *)
Record App := mkApp {
  App_IMName : LabelField;
  App_IMImages : slice Image;
  App_Summary : LabelField;
  App_IMPrice : Price;
  App_IMContentType : ContentType;
  App_Rights : LabelField;
  App_Title : LabelField;
  App_LinkRaw : option json;
  App_LinkSingle : Link;
  App_LinkMulti : list Link;
  App_ID : AppID;
  App_IMArtist : Artist;
  App_Category : Category;
  App_IMReleaseDate : ReleaseDate
}.

Definition App_zero : App :=
  mkApp LabelField_zero None LabelField_zero Price_zero ContentType_zero
    LabelField_zero LabelField_zero None Link_zero [] AppID_zero Artist_zero
    Category_zero ReleaseDate_zero.

Definition set_App_IMName (v : App) (x : LabelField) : App :=
  mkApp x (App_IMImages v) (App_Summary v) (App_IMPrice v) (App_IMContentType v) (App_Rights v) (App_Title v) (App_LinkRaw v) (App_LinkSingle v) (App_LinkMulti v) (App_ID v) (App_IMArtist v) (App_Category v) (App_IMReleaseDate v).
Definition set_App_IMImages (v : App) (x : slice Image) : App :=
  mkApp (App_IMName v) x (App_Summary v) (App_IMPrice v) (App_IMContentType v) (App_Rights v) (App_Title v) (App_LinkRaw v) (App_LinkSingle v) (App_LinkMulti v) (App_ID v) (App_IMArtist v) (App_Category v) (App_IMReleaseDate v).
Definition set_App_Summary (v : App) (x : LabelField) : App :=
  mkApp (App_IMName v) (App_IMImages v) x (App_IMPrice v) (App_IMContentType v) (App_Rights v) (App_Title v) (App_LinkRaw v) (App_LinkSingle v) (App_LinkMulti v) (App_ID v) (App_IMArtist v) (App_Category v) (App_IMReleaseDate v).
Definition set_App_IMPrice (v : App) (x : Price) : App :=
  mkApp (App_IMName v) (App_IMImages v) (App_Summary v) x (App_IMContentType v) (App_Rights v) (App_Title v) (App_LinkRaw v) (App_LinkSingle v) (App_LinkMulti v) (App_ID v) (App_IMArtist v) (App_Category v) (App_IMReleaseDate v).
Definition set_App_IMContentType (v : App) (x : ContentType) : App :=
  mkApp (App_IMName v) (App_IMImages v) (App_Summary v) (App_IMPrice v) x (App_Rights v) (App_Title v) (App_LinkRaw v) (App_LinkSingle v) (App_LinkMulti v) (App_ID v) (App_IMArtist v) (App_Category v) (App_IMReleaseDate v).
Definition set_App_Rights (v : App) (x : LabelField) : App :=
  mkApp (App_IMName v) (App_IMImages v) (App_Summary v) (App_IMPrice v) (App_IMContentType v) x (App_Title v) (App_LinkRaw v) (App_LinkSingle v) (App_LinkMulti v) (App_ID v) (App_IMArtist v) (App_Category v) (App_IMReleaseDate v).
Definition set_App_Title (v : App) (x : LabelField) : App :=
  mkApp (App_IMName v) (App_IMImages v) (App_Summary v) (App_IMPrice v) (App_IMContentType v) (App_Rights v) x (App_LinkRaw v) (App_LinkSingle v) (App_LinkMulti v) (App_ID v) (App_IMArtist v) (App_Category v) (App_IMReleaseDate v).
Definition set_App_LinkRaw (v : App) (x : option json) : App :=
  mkApp (App_IMName v) (App_IMImages v) (App_Summary v) (App_IMPrice v) (App_IMContentType v) (App_Rights v) (App_Title v) x (App_LinkSingle v) (App_LinkMulti v) (App_ID v) (App_IMArtist v) (App_Category v) (App_IMReleaseDate v).
Definition set_App_LinkSingle (v : App) (x : Link) : App :=
  mkApp (App_IMName v) (App_IMImages v) (App_Summary v) (App_IMPrice v) (App_IMContentType v) (App_Rights v) (App_Title v) (App_LinkRaw v) x (App_LinkMulti v) (App_ID v) (App_IMArtist v) (App_Category v) (App_IMReleaseDate v).
Definition set_App_LinkMulti (v : App) (x : list Link) : App :=
  mkApp (App_IMName v) (App_IMImages v) (App_Summary v) (App_IMPrice v) (App_IMContentType v) (App_Rights v) (App_Title v) (App_LinkRaw v) (App_LinkSingle v) x (App_ID v) (App_IMArtist v) (App_Category v) (App_IMReleaseDate v).
Definition set_App_ID (v : App) (x : AppID) : App :=
  mkApp (App_IMName v) (App_IMImages v) (App_Summary v) (App_IMPrice v) (App_IMContentType v) (App_Rights v) (App_Title v) (App_LinkRaw v) (App_LinkSingle v) (App_LinkMulti v) x (App_IMArtist v) (App_Category v) (App_IMReleaseDate v).
Definition set_App_IMArtist (v : App) (x : Artist) : App :=
  mkApp (App_IMName v) (App_IMImages v) (App_Summary v) (App_IMPrice v) (App_IMContentType v) (App_Rights v) (App_Title v) (App_LinkRaw v) (App_LinkSingle v) (App_LinkMulti v) (App_ID v) x (App_Category v) (App_IMReleaseDate v).
Definition set_App_Category (v : App) (x : Category) : App :=
  mkApp (App_IMName v) (App_IMImages v) (App_Summary v) (App_IMPrice v) (App_IMContentType v) (App_Rights v) (App_Title v) (App_LinkRaw v) (App_LinkSingle v) (App_LinkMulti v) (App_ID v) (App_IMArtist v) x (App_IMReleaseDate v).
Definition set_App_IMReleaseDate (v : App) (x : ReleaseDate) : App :=
  mkApp (App_IMName v) (App_IMImages v) (App_Summary v) (App_IMPrice v) (App_IMContentType v) (App_Rights v) (App_Title v) (App_LinkRaw v) (App_LinkSingle v) (App_LinkMulti v) (App_ID v) (App_IMArtist v) (App_Category v) x.

(** A [json.RawMessage] field keeps the value of the key, [null] included. *)
Definition dec_RawMessage : decoder (option json) := fun j _ => Some (Some j).

(** The fields of [type Alias App]: every field of [App] except the two
    tagged ["-"]. *)
Definition App_alias_fields : list (string * decoder App) :=
  [("im:name", fld App_IMName set_App_IMName dec_LabelField);
   ("im:image", fld App_IMImages set_App_IMImages (dec_goslice dec_Image Image_zero));
   ("summary", fld App_Summary set_App_Summary dec_LabelField);
   ("im:price", fld App_IMPrice set_App_IMPrice dec_Price);
   ("im:contentType", fld App_IMContentType set_App_IMContentType dec_ContentType);
   ("rights", fld App_Rights set_App_Rights dec_LabelField);
   ("title", fld App_Title set_App_Title dec_LabelField);
   ("link", fld App_LinkRaw set_App_LinkRaw dec_RawMessage);
   ("id", fld App_ID set_App_ID dec_AppID);
   ("im:artist", fld App_IMArtist set_App_IMArtist dec_Artist);
   ("category", fld App_Category set_App_Category dec_Category);
   ("im:releaseDate", fld App_IMReleaseDate set_App_IMReleaseDate dec_ReleaseDate)].

(** [json.Unmarshal(raw, &x)] for a fresh [x]: a nil message is
    "unexpected end of JSON input". *)
Definition unmarshal_raw {T} (d : decoder T) (zero : T) (raw : option json) : option T :=
  match raw with
  | None => None
  | Some j => d j zero
  end.

(** [App.UnmarshalJSON] (pointer receiver), decoding into the existing value [e]. *)
Definition App_UnmarshalJSON (data : json) (e : App) : option App :=
  let? e1 := dec_struct App_alias_fields data e in
  match unmarshal_raw dec_Link Link_zero (App_LinkRaw e1) with
  | Some single => Some (set_App_LinkSingle e1 single)
  | None =>
      match unmarshal_raw (dec_slice dec_Link Link_zero) [] (App_LinkRaw e1) with
      | Some multi => Some (set_App_LinkMulti e1 multi)
      | None => None
      end
  end.

Record AppResponse := mkAppResponse {
  AppResponse_ID : string; AppResponse_AppID : string; AppResponse_BundleID : string;
  AppResponse_Author : string; AppResponse_ReleaseDate : string; AppResponse_Name : string;
  AppResponse_Category : string; AppResponse_ArtworkURL : string; AppResponse_URL : string;
  AppResponse_Summary : string; AppResponse_Price : string; AppResponse_Rights : string;
  AppResponse_Title : string }.

Definition is_alternate_html (l : Link) : bool :=
  String.eqb (Link_Rel (Link_Attributes l)) "alternate"
  && String.eqb (Link_Type (Link_Attributes l)) "text/html".

(** The [for ... range a.LinkMulti] loop with its [break]. *)
Fixpoint scan_links (ls : list Link) : string :=
  match ls with
  | [] => ""
  | l :: ls' => if is_alternate_html l then Link_Href (Link_Attributes l) else scan_links ls'
  end.

(** [App.ToAppResponse] (pointer receiver): Go's [*AppResponse, error] pair as a pointer
    (option) and an optional error. *)
Definition ToAppResponse (a : App) : option AppResponse * option string :=
  let artworkURL := match slice_elems (App_IMImages a) with i :: _ => Image_Label i | [] => "" end in
  let appURL :=
    match App_LinkMulti a with
    | _ :: _ => scan_links (App_LinkMulti a)
    | [] => if is_alternate_html (App_LinkSingle a)
            then Link_Href (Link_Attributes (App_LinkSingle a)) else ""
    end in
  (Some {| AppResponse_ID := AppID_ID (AppID_Attributes (App_ID a));
           AppResponse_AppID := AppID_ID (AppID_Attributes (App_ID a));
           AppResponse_BundleID := AppID_BundleID (AppID_Attributes (App_ID a));
           AppResponse_Author := Artist_Label (App_IMArtist a);
           AppResponse_ReleaseDate := ReleaseDate_Attr_Label (ReleaseDate_Attributes (App_IMReleaseDate a));
           AppResponse_Name := LabelField_Label (App_IMName a);
           AppResponse_Category := Category_Label (Category_Attributes (App_Category a));
           AppResponse_ArtworkURL := artworkURL;
           AppResponse_URL := appURL;
           AppResponse_Summary := LabelField_Label (App_Summary a);
           AppResponse_Price := Price_Label (App_IMPrice a);
           AppResponse_Rights := LabelField_Label (App_Rights a);
           AppResponse_Title := LabelField_Label (App_Title a) |}, None).

(** [models.Root]: [{"feed": {"entry": [...]}}]. *)
Record RootFeed := mkRootFeed { RootFeed_Entries : slice App }.
Record Root := mkRoot { Root_Feed : RootFeed }.
Definition Root_zero := mkRoot (mkRootFeed None).
Definition dec_RootFeed : decoder RootFeed := dec_struct
  [("entry", fld RootFeed_Entries (fun _ x => mkRootFeed x) (dec_goslice App_UnmarshalJSON App_zero))].
Definition dec_Root : decoder Root := dec_struct
  [("feed", fld Root_Feed (fun _ x => mkRoot x) dec_RootFeed)].

(* ------------------------------------------------------------------ *)
(** ** The review model ([models.Review], [models.ReviewResponse])       *)
(* ------------------------------------------------------------------ *)

(** Each anonymous [struct { Label string }] of [Review] has the shape of
    [LabelField]. *)
Record ReviewAuthor := mkReviewAuthor { ReviewAuthor_Name : LabelField }.
Record Review := mkReview {
  Review_ID : LabelField; Review_Author : ReviewAuthor; Review_Content : LabelField;
  Review_Rating : LabelField; Review_Timestamp : LabelField }.
Definition Review_zero :=
  mkReview LabelField_zero (mkReviewAuthor LabelField_zero) LabelField_zero LabelField_zero LabelField_zero.

Definition dec_ReviewAuthor : decoder ReviewAuthor := dec_struct
  [("name", fld ReviewAuthor_Name (fun _ x => mkReviewAuthor x) dec_LabelField)].
Definition dec_Review : decoder Review := dec_struct
  [("id", fld Review_ID (fun v x => mkReview x (Review_Author v) (Review_Content v) (Review_Rating v) (Review_Timestamp v)) dec_LabelField);
   ("author", fld Review_Author (fun v x => mkReview (Review_ID v) x (Review_Content v) (Review_Rating v) (Review_Timestamp v)) dec_ReviewAuthor);
   ("content", fld Review_Content (fun v x => mkReview (Review_ID v) (Review_Author v) x (Review_Rating v) (Review_Timestamp v)) dec_LabelField);
   ("im:rating", fld Review_Rating (fun v x => mkReview (Review_ID v) (Review_Author v) (Review_Content v) x (Review_Timestamp v)) dec_LabelField);
   ("updated", fld Review_Timestamp (fun v x => mkReview (Review_ID v) (Review_Author v) (Review_Content v) (Review_Rating v) x) dec_LabelField)].

(** [models.ReviewFeed] and [models.ReviewsFeed]. *)
Record ReviewsFeed := mkReviewsFeed { ReviewsFeed_Entries : slice Review }.
Record ReviewFeed := mkReviewFeed { ReviewFeed_Feed : ReviewsFeed }.
Definition ReviewFeed_zero := mkReviewFeed (mkReviewsFeed None).
Definition dec_ReviewsFeed : decoder ReviewsFeed := dec_struct
  [("entry", fld ReviewsFeed_Entries (fun _ x => mkReviewsFeed x) (dec_goslice dec_Review Review_zero))].
Definition dec_ReviewFeed : decoder ReviewFeed := dec_struct
  [("feed", fld ReviewFeed_Feed (fun _ x => mkReviewFeed x) dec_ReviewsFeed)].

Record ReviewResponse := mkReviewResponse {
  ReviewResponse_ID : string; ReviewResponse_Content : string; ReviewResponse_Author : string;
  ReviewResponse_Score : Z; ReviewResponse_Time : string }.

(** [Review.ToReviewResponse]. *)
Definition ToReviewResponse (r : Review) : result ReviewResponse :=
  match Atoi (LabelField_Label (Review_Rating r)) with
  | Error e => Error ("failed to convert rating to integer: " +:+ e)
  | Ok score =>
      Ok {| ReviewResponse_ID := LabelField_Label (Review_ID r);
            ReviewResponse_Content := LabelField_Label (Review_Content r);
            ReviewResponse_Author := LabelField_Label (ReviewAuthor_Name (Review_Author r));
            ReviewResponse_Score := score;
            ReviewResponse_Time := LabelField_Label (Review_Timestamp r) |}
  end.

(** [services.convertReviews]: the first failing review aborts the loop. *)
Fixpoint convertReviews (reviews : list Review) : result (list ReviewResponse) :=
  match reviews with
  | [] => Ok []
  | review :: rest =>
      match ToReviewResponse review with
      | Error e => Error e
      | Ok response =>
          match convertReviews rest with
          | Error e => Error e
          | Ok responses => Ok (response :: responses)
          end
      end
  end.

(* ------------------------------------------------------------------ *)
(** ** Encoding ([json.Marshal] of the same types)                       *)
(* ------------------------------------------------------------------ *)

(** Struct fields in declaration order under their tags, strings through
    [json_str].  A nil slice is written [null], any other slice as an
    array. *)
Definition marshal_slice {T} (m : T -> json) (xs : slice T) : json :=
  match xs with
  | None => JNull
  | Some l => JArray (map m l)
  end.

(** The slice a Go loop builds by [append] from a nil slice: nil when
    nothing was appended. *)
Definition appended {T} (l : list T) : slice T :=
  match l with [] => None | _ :: _ => Some l end.

Definition marshal_LabelField (v : LabelField) : json :=
  JObject [("label", json_str (LabelField_Label v))].
Definition marshal_Image (v : Image) : json :=
  JObject [("label", json_str (Image_Label v));
           ("attributes", JObject [("height", json_str (Image_Height (Image_Attributes v)))])].
Definition marshal_Price (v : Price) : json :=
  JObject [("label", json_str (Price_Label v));
           ("attributes", JObject [("amount", json_str (Price_Amount (Price_Attributes v)));
                                   ("currency", json_str (Price_Currency (Price_Attributes v)))])].
Definition marshal_ContentType (v : ContentType) : json :=
  JObject [("attributes", JObject [("term", json_str (ContentType_Term (ContentType_Attributes v)));
                                   ("label", json_str (ContentType_Label (ContentType_Attributes v)))])].
Definition marshal_AppID (v : AppID) : json :=
  JObject [("label", json_str (AppID_Label v));
           ("attributes", JObject [("im:id", json_str (AppID_ID (AppID_Attributes v)));
                                   ("im:bundleId", json_str (AppID_BundleID (AppID_Attributes v)))])].
Definition marshal_Artist (v : Artist) : json :=
  JObject [("label", json_str (Artist_Label v));
           ("attributes", JObject [("href", json_str (Artist_Href (Artist_Attributes v)))])].
Definition marshal_Category (v : Category) : json :=
  JObject [("attributes", JObject [("im:id", json_str (Category_ID (Category_Attributes v)));
                                   ("term", json_str (Category_Term (Category_Attributes v)));
                                   ("scheme", json_str (Category_Scheme (Category_Attributes v)));
                                   ("label", json_str (Category_Label (Category_Attributes v)))])].
Definition marshal_ReleaseDate (v : ReleaseDate) : json :=
  JObject [("label", json_str (ReleaseDate_Label v));
           ("attributes", JObject [("label", json_str (ReleaseDate_Attr_Label (ReleaseDate_Attributes v)))])].

(** [json.RawMessage.MarshalJSON]: the message itself, [null] when nil. *)
Definition marshal_RawMessage (r : option json) : json :=
  match r with None => JNull | Some j => j end.

(** [App] has no [MarshalJSON]: its fields are encoded, the ["-"] ones
    skipped. *)
Definition marshal_App (a : App) : json :=
  JObject [("im:name", marshal_LabelField (App_IMName a));
           ("im:image", marshal_slice marshal_Image (App_IMImages a));
           ("summary", marshal_LabelField (App_Summary a));
           ("im:price", marshal_Price (App_IMPrice a));
           ("im:contentType", marshal_ContentType (App_IMContentType a));
           ("rights", marshal_LabelField (App_Rights a));
           ("title", marshal_LabelField (App_Title a));
           ("link", marshal_RawMessage (App_LinkRaw a));
           ("id", marshal_AppID (App_ID a));
           ("im:artist", marshal_Artist (App_IMArtist a));
           ("category", marshal_Category (App_Category a));
           ("im:releaseDate", marshal_ReleaseDate (App_IMReleaseDate a))].

Definition marshal_Review (r : Review) : json :=
  JObject [("id", marshal_LabelField (Review_ID r));
           ("author", JObject [("name", marshal_LabelField (ReviewAuthor_Name (Review_Author r)))]);
           ("content", marshal_LabelField (Review_Content r));
           ("im:rating", marshal_LabelField (Review_Rating r));
           ("updated", marshal_LabelField (Review_Timestamp r))].

(** Decimal rendering of an integer ([%d], [strconv.Itoa]). *)
Fixpoint dec_digits (fuel : nat) (n : Z) (acc : string) : string :=
  match fuel with
  | O => acc
  | S f =>
      let acc' := String (ascii_of_nat (48 + Z.to_nat (Z.modulo n 10))) acc in
      if n <? 10 then acc' else dec_digits f (n / 10) acc'
  end.
Definition itoa (n : Z) : string :=
  if n <? 0 then String "-" (dec_digits 20 (- n) "") else dec_digits 20 n "".

Definition marshal_ReviewResponse (r : ReviewResponse) : json :=
  JObject [("id", json_str (ReviewResponse_ID r));
           ("content", json_str (ReviewResponse_Content r));
           ("author", json_str (ReviewResponse_Author r));
           ("score", JNumber (itoa (ReviewResponse_Score r)));
           ("time", json_str (ReviewResponse_Time r))].

(** Values whose strings Go encodes byte for byte: every string is
    unchanged by [utf8_sanitize] (it is valid UTF-8).  Decoded values are
    of this kind.  The raw link message and the two ["-"] link fields are
    not encoded as strings and are left out. *)
Definition valid_str (s : string) : Prop := utf8_sanitize s = s.
Definition valid_LabelField (v : LabelField) : Prop := valid_str (LabelField_Label v).
Definition valid_ImageAttributes (v : ImageAttributes) : Prop := valid_str (Image_Height v).
Definition valid_Image (v : Image) : Prop :=
  valid_str (Image_Label v) /\ valid_ImageAttributes (Image_Attributes v).
Definition valid_PriceAttributes (v : PriceAttributes) : Prop :=
  valid_str (Price_Amount v) /\ valid_str (Price_Currency v).
Definition valid_Price (v : Price) : Prop :=
  valid_str (Price_Label v) /\ valid_PriceAttributes (Price_Attributes v).
Definition valid_ContentTypeAttributes (v : ContentTypeAttributes) : Prop :=
  valid_str (ContentType_Term v) /\ valid_str (ContentType_Label v).
Definition valid_ContentType (v : ContentType) : Prop :=
  valid_ContentTypeAttributes (ContentType_Attributes v).
Definition valid_AppIDAttributes (v : AppIDAttributes) : Prop :=
  valid_str (AppID_ID v) /\ valid_str (AppID_BundleID v).
Definition valid_AppID (v : AppID) : Prop :=
  valid_str (AppID_Label v) /\ valid_AppIDAttributes (AppID_Attributes v).
Definition valid_ArtistAttributes (v : ArtistAttributes) : Prop := valid_str (Artist_Href v).
Definition valid_Artist (v : Artist) : Prop :=
  valid_str (Artist_Label v) /\ valid_ArtistAttributes (Artist_Attributes v).
Definition valid_CategoryAttributes (v : CategoryAttributes) : Prop :=
  valid_str (Category_ID v) /\ valid_str (Category_Term v) /\
  valid_str (Category_Scheme v) /\ valid_str (Category_Label v).
Definition valid_Category (v : Category) : Prop := valid_CategoryAttributes (Category_Attributes v).
Definition valid_ReleaseDateAttributes (v : ReleaseDateAttributes) : Prop :=
  valid_str (ReleaseDate_Attr_Label v).
Definition valid_ReleaseDate (v : ReleaseDate) : Prop :=
  valid_str (ReleaseDate_Label v) /\ valid_ReleaseDateAttributes (ReleaseDate_Attributes v).
Definition valid_App (a : App) : Prop :=
  valid_LabelField (App_IMName a) /\ Forall valid_Image (slice_elems (App_IMImages a)) /\
  valid_LabelField (App_Summary a) /\ valid_Price (App_IMPrice a) /\
  valid_ContentType (App_IMContentType a) /\ valid_LabelField (App_Rights a) /\
  valid_LabelField (App_Title a) /\ valid_AppID (App_ID a) /\ valid_Artist (App_IMArtist a) /\
  valid_Category (App_Category a) /\ valid_ReleaseDate (App_IMReleaseDate a).
Definition valid_ReviewAuthor (v : ReviewAuthor) : Prop := valid_LabelField (ReviewAuthor_Name v).
Definition valid_Review (r : Review) : Prop :=
  valid_LabelField (Review_ID r) /\ valid_ReviewAuthor (Review_Author r) /\
  valid_LabelField (Review_Content r) /\ valid_LabelField (Review_Rating r) /\
  valid_LabelField (Review_Timestamp r).

(** A decoder that keeps a property of the value it decodes into. *)
Definition preserves {T} (P : T -> Prop) (d : decoder T) : Prop :=
  forall j cur v, P cur -> d j cur = Some v -> P v.

(* ------------------------------------------------------------------ *)
(** ** The world: files, upstream HTTP, the clock                        *)
(* ------------------------------------------------------------------ *)

(** Bytes of a file or a response body: valid JSON, or other text. *)
Inductive payload : Type :=
| PJson (j : json)
| PText (s : string).

(** The outcome of [Client.Get]: a transport error, or a response whose
    body reads fully ([Some]) or fails while being read ([None]). *)
Inductive http_result : Type :=
| TransportError (msg : string)
| Response (status : Z) (body : option payload).

Record World := mkWorld {
  fs : gmap string payload;           (** files on disk *)
  writable : string -> bool;          (** [MkdirAll] and [WriteFile] succeed *)
  clock : Z;                          (** [time.Now()], ns since the epoch *)
  upstream : string -> http_result;   (** what the network answers for a URL *)
  requests : list string              (** URLs fetched so far, latest first *)
}.

(** Explicit state passing; Go's error results stay in the value. *)
Definition M (A : Type) : Type := World -> A * World.
Definition ret {A} (a : A) : M A := fun w => (a, w).
Definition bind {A B} (m : M A) (k : A -> M B) : M B :=
  fun w => let '(a, w') := m w in k a w'.
Notation "'let!' x := m 'in' k" := (bind m (fun x => k))
  (at level 200, x name, m at level 100, k at level 200).

Definition set_fs (w : World) (f : gmap string payload) : World :=
  mkWorld f (writable w) (clock w) (upstream w) (requests w).

Definition Client_Get (url : string) : M http_result :=
  fun w => (upstream w url, mkWorld (fs w) (writable w) (clock w) (upstream w) (url :: requests w)).

Definition time_Now : M Z := fun w => (clock w, w).

Definition os_ReadFile (filename : string) : M (option payload) :=
  fun w => (fs w !! filename, w).

(** [services.saveDataToFile]: [MarshalIndent] cannot fail on these
    types; the directory creation and the write succeed or fail
    together with [writable]. *)
Definition saveDataToFile {T} (marshal : T -> json) (data : slice T) (filename : string) : M (result unit) :=
  fun w =>
    if writable w filename
    then (Ok tt, set_fs w (<[filename := PJson (marshal_slice marshal data)]> (fs w)))
    else (Error "failed to write data to file", w).

Record Config := mkConfig {
  AppsApiUrl : string; ReviewsBaseUrl : string;
  AppsStorageFile : string; ReviewsStorageFile : string }.

(** [services.AppService]; its [Client] is the world's [upstream], its
    [Logger] has no effect on results. *)
Record AppService := mkAppService { AppService_Config : Config }.

Definition saveAppsToFile (apps : slice App) (filename : string) : M (result unit) :=
  saveDataToFile marshal_App apps filename.

Definition loadAppsFromFile (filename : string) : M (result (list App)) :=
  let! jsonData := os_ReadFile filename in
  match jsonData with
  | None => ret (Error "failed to read file")
  | Some (PText _) => ret (Error "failed to unmarshal JSON from file")
  | Some (PJson j) =>
      match dec_slice App_UnmarshalJSON App_zero j [] with
      | None => ret (Error "failed to unmarshal JSON from file")
      | Some apps => ret (Ok apps)
      end
  end.

Definition convertRootToAppResponse (root : Root) : list (option AppResponse) :=
  map (fun app => fst (ToAppResponse app)) (slice_elems (RootFeed_Entries (Root_Feed root))).

(** [(s *AppService) GetApps]. *)
Definition AppService_GetApps (s : AppService) : M (result (list (option AppResponse))) :=
  let cfg := AppService_Config s in
  let! existingApps := loadAppsFromFile (AppsStorageFile cfg) in
  match existingApps with
  | Ok ((_ :: _) as apps) => ret (Ok (map (fun app => fst (ToAppResponse app)) apps))
  | _ =>
      let! resp := Client_Get (AppsApiUrl cfg) in
      match resp with
      | TransportError e => ret (Error ("failed to make HTTP request: " +:+ e))
      | Response status body =>
          if negb (status =? 200) then ret (Error ("received non-200 status code: " +:+ itoa status)) else
          match body with
          | None => ret (Error "failed to read response body")
          | Some (PText _) => ret (Error "failed to unmarshal JSON")
          | Some (PJson j) =>
              match dec_Root j Root_zero with
              | None => ret (Error "failed to unmarshal JSON")
              | Some root =>
                  let! _ := saveAppsToFile (RootFeed_Entries (Root_Feed root)) (AppsStorageFile cfg) in
                  ret (Ok (convertRootToAppResponse root))
              end
          end
      end
  end.

Definition saveReviewsToFile (reviews : slice Review) (filename : string) : M (result unit) :=
  saveDataToFile marshal_Review reviews filename.

(** [(s *AppService) GetAppReviewsFromApi]; its caller only ranges over
    the returned slice. *)
Definition AppService_GetAppReviewsFromApi (s : AppService) (appID : string) : M (result (list Review)) :=
  let cfg := AppService_Config s in
  let url := ReviewsBaseUrl cfg +:+ "/id=" +:+ appID +:+ "/sortBy=mostRecent/page=1/json" in
  let! resp := Client_Get url in
  match resp with
  | TransportError e => ret (Error ("failed to make HTTP request for reviews: " +:+ e))
  | Response status body =>
      if negb (status =? 200) then ret (Error ("received non-200 status code for reviews: " +:+ itoa status)) else
      match body with
      | None => ret (Error "failed to read reviews response body")
      | Some (PText _) => ret (Error "failed to unmarshal reviews JSON")
      | Some (PJson j) =>
          match dec_ReviewFeed j ReviewFeed_zero with
          | None => ret (Error "failed to unmarshal reviews JSON")
          | Some feed =>
              let! _ := saveReviewsToFile (ReviewsFeed_Entries (ReviewFeed_Feed feed)) (ReviewsStorageFile cfg) in
              ret (Ok (slice_elems (ReviewsFeed_Entries (ReviewFeed_Feed feed))))
          end
      end
  end.

(* ------------------------------------------------------------------ *)
(** ** The review window                                                 *)
(* ------------------------------------------------------------------ *)

(** Go's [int] and [time.Duration] are 64-bit and wrap on overflow. *)
Definition int64_wrap (x : Z) : Z := Z.modulo (x + 2 ^ 63) (2 ^ 64) - 2 ^ 63.
Definition time_Hour : Z := 3600000000000.

(** [Time.Add] on the wall clock (no instant used here leaves Go's range
    of representable times) and [Time.After]. *)
Definition Time_Add (t d : Z) : Z := t + d.
Definition Time_After (t u : Z) : bool := u <? t.

(** The loop of [GetReviews] that keeps a review when its timestamp
    parses and is after the cutoff. *)
Fixpoint filter_recent (cutoff : Z) (reviews : list Review) : list Review :=
  match reviews with
  | [] => []
  | review :: rest =>
      match time_Parse_RFC3339 (LabelField_Label (Review_Timestamp review)) with
      | None => filter_recent cutoff rest
      | Some reviewTime =>
          if Time_After reviewTime cutoff
          then review :: filter_recent cutoff rest
          else filter_recent cutoff rest
      end
  end.

(** [time.Now().Add(time.Duration(-hours) * time.Hour)]. *)
Definition cutoff_of (now hours : Z) : Z :=
  Time_Add now (int64_wrap (int64_wrap (- hours) * time_Hour)).

(** [(s *AppService) GetReviews]. *)
Definition AppService_GetReviews (s : AppService) (appID : string) (hours : Z)
    : M (result (list ReviewResponse)) :=
  let! fetched := AppService_GetAppReviewsFromApi s appID in
  match fetched with
  | Error e => ret (Error ("failed to get reviews: " +:+ e))
  | Ok allReviews =>
      if hours =? 0 then ret (convertReviews allReviews) else
      let! now := time_Now in
      ret (convertReviews (filter_recent (cutoff_of now hours) allReviews))
  end.

(* ------------------------------------------------------------------ *)
(** ** [services.AppServiceInterface] and the HTTP handler               *)
(* ------------------------------------------------------------------ *)

Class AppServiceInterface (S : Type) := {
  GetApps : S -> M (result (list (option AppResponse)));
  GetAppReviewsFromApi : S -> string -> M (result (list Review));
  GetReviews : S -> string -> Z -> M (result (list ReviewResponse))
}.

#[export] Instance AppService_AppServiceInterface : AppServiceInterface AppService := {|
  GetApps := AppService_GetApps;
  GetAppReviewsFromApi := AppService_GetAppReviewsFromApi;
  GetReviews := AppService_GetReviews
|}.

Record Handlers (S : Type) := mkHandlers { Handlers_AppService : S; Handlers_Config : Config }.
Arguments mkHandlers {S} _ _.
Arguments Handlers_AppService {S} _.

(** [r.URL.Query()]: the decoded [key=value] pairs in query order;
    [Values.Get] returns the first value of the key, or [""]. *)
Definition Values : Type := list (string * string).
Fixpoint Values_Get (q : Values) (key : string) : string :=
  match q with
  | [] => ""
  | (k, v) :: q' => if String.eqb k key then v else Values_Get q' key
  end.

Record HttpResponse := mkHttpResponse { StatusCode : Z; ResponseBody : payload }.

(** [http.Error]. *)
Definition http_Error (msg : string) (code : Z) : HttpResponse :=
  mkHttpResponse code (PText msg).

Definition StatusOK : Z := 200.
Definition StatusBadRequest : Z := 400.
Definition StatusInternalServerError : Z := 500.

(** [(h *Handlers) AppReviewsHandler]; encoding the reviews to the
    response writer is taken to succeed.  The slice returned by
    [GetReviews] is taken to be nil when empty, as the [AppService]
    implementation returns it: [convertReviews] builds its result by
    [append] from a nil slice. *)
Definition AppReviewsHandler {S} `{AppServiceInterface S} (h : Handlers S) (q : Values) : M HttpResponse :=
  let appID := Values_Get q "id" in
  if String.eqb appID "" then ret (http_Error "Missing 'id' query parameter" StatusBadRequest) else
  let hoursStr := Values_Get q "hours" in
  let hours :=
    if String.eqb hoursStr "" then Ok 0 else
    match Atoi hoursStr with
    | Ok n => if n <? 0 then Error "negative" else Ok n
    | Error e => Error e
    end in
  match hours with
  | Error _ => ret (http_Error "Invalid 'hours' parameter" StatusBadRequest)
  | Ok hours =>
      let! reviews := GetReviews (Handlers_AppService h) appID hours in
      match reviews with
      | Error e => ret (http_Error ("Error fetching reviews: " +:+ e) StatusInternalServerError)
      | Ok rs => ret (mkHttpResponse StatusOK (PJson (marshal_slice marshal_ReviewResponse (appended rs))))
      end
  end.

(* ------------------------------------------------------------------ *)
(** ** The rest of the service, the handlers and the configuration        *)
(* ------------------------------------------------------------------ *)

(** [(s *AppService) loadReviewsFromFile]. *)
Definition loadReviewsFromFile (filename : string) : M (result (list Review)) :=
  let! jsonData := os_ReadFile filename in
  match jsonData with
  | None => ret (Error "failed to read file")
  | Some (PText _) => ret (Error "failed to unmarshal JSON from file")
  | Some (PJson j) =>
      match dec_slice dec_Review Review_zero j [] with
      | None => ret (Error "failed to unmarshal JSON from file")
      | Some reviews => ret (Ok reviews)
      end
  end.

Definition marshal_AppResponse (r : AppResponse) : json :=
  JObject [("id", json_str (AppResponse_ID r));
           ("app_id", json_str (AppResponse_AppID r));
           ("bundle_id", json_str (AppResponse_BundleID r));
           ("author", json_str (AppResponse_Author r));
           ("release_date", json_str (AppResponse_ReleaseDate r));
           ("name", json_str (AppResponse_Name r));
           ("category", json_str (AppResponse_Category r));
           ("artwork_url", json_str (AppResponse_ArtworkURL r));
           ("url", json_str (AppResponse_URL r));
           ("summary", json_str (AppResponse_Summary r));
           ("price", json_str (AppResponse_Price r));
           ("rights", json_str (AppResponse_Rights r));
           ("title", json_str (AppResponse_Title r))].

(** [json.NewEncoder(w).Encode(apps)] for [apps []*AppResponse]: a nil
    pointer is [null], a nil slice is [null].  The slices [GetApps]
    returns are nil exactly when they are empty: the cache branch makes
    [len(existingApps)] > 0 responses and [convertRootToAppResponse]
    appends to a nil slice. *)
Definition marshal_AppResponses (rs : list (option AppResponse)) : json :=
  match rs with
  | [] => JNull
  | _ => JArray (map (fun o => match o with None => JNull | Some r => marshal_AppResponse r end) rs)
  end.

(** [(h *Handlers) AppListHandler]; encoding to the response writer is
    taken to succeed. *)
Definition AppListHandler {S} `{AppServiceInterface S} (h : Handlers S) : M HttpResponse :=
  let! apps := GetApps (Handlers_AppService h) in
  match apps with
  | Error e => ret (http_Error ("Error fetching apps: " +:+ e) StatusInternalServerError)
  | Ok rs => ret (mkHttpResponse StatusOK (PJson (marshal_AppResponses rs)))
  end.

(** The [int] that [strconv.Atoi] returns beside its error (64-bit
    [int]), with the error kind: [None] for no error, [Some false] for a
    syntax error, [Some true] for a range error. *)
Definition uint64_max : Z := 2 ^ 64 - 1.

(** The digit loop of [strconv.ParseUint(s, 10, 64)]: a non-digit is a
    syntax error with value 0; an overflow returns at once with the
    maximum and a range error. *)
Fixpoint ParseUint_loop (n : Z) (s : string) : Z * option bool :=
  match s with
  | EmptyString => (n, None)
  | String c s' =>
      match digit_val c with
      | None => (0, Some false)
      | Some d =>
          if 1844674407370955162 <=? n then (uint64_max, Some true) else
          let n1 := n * 10 + d in
          if uint64_max <? n1 then (uint64_max, Some true) else ParseUint_loop n1 s'
      end
  end.

Definition ParseUint10 (s : string) : Z * option bool :=
  match s with
  | EmptyString => (0, Some false)
  | _ => ParseUint_loop 0 s
  end.

(** [strconv.ParseInt(s, 10, 0)]: the magnitude from [ParseUint], a
    syntax error gives 0, an out-of-range value is clamped to the bound
    of its sign. *)
Definition ParseInt10 (s0 : string) : Z * option bool :=
  match s0 with
  | EmptyString => (0, Some false)
  | _ =>
      let '(neg, s) :=
        match s0 with
        | String "-" b => (true, b)
        | String "+" b => (false, b)
        | _ => (false, s0)
        end in
      let '(un, err) := ParseUint10 s in
      match err with
      | Some false => (0, Some false)
      | _ =>
          if negb neg && (2 ^ 63 <=? un) then (2 ^ 63 - 1, Some true) else
          if neg && (2 ^ 63 <? un) then (- 2 ^ 63, Some true) else
          ((if neg then - un else un), err)
      end
  end.

(** [strconv.Atoi]: the fast path for 1 to 18 bytes, else [ParseInt]. *)
Definition Atoi_go (s0 : string) : Z * option bool :=
  if (0 <? Z.of_nat (String.length s0)) && (Z.of_nat (String.length s0) <? 19) then
    let '(neg, signed, s) :=
      match s0 with
      | String "-" b => (true, true, b)
      | String "+" b => (false, true, b)
      | _ => (false, false, s0)
      end in
    match s with
    | EmptyString => (0, Some false)
    | _ =>
        match digits_value 0 s with
        | None => (0, Some false)
        | Some n => ((if neg then - n else n), None)
        end
    end
  else ParseInt10 s0.

Definition Atoi_value (s : string) : Z := fst (Atoi_go s).

(** [logger.Config] and [config.Config]: [FullConfig_Service] holds the
    four fields the service reads ([Config] above). *)
Record LoggerConfig := mkLoggerConfig { LoggerConfig_Level : string; LoggerConfig_FilePath : string }.
Record FullConfig := mkFullConfig {
  FullConfig_Port : Z;
  FullConfig_Service : Config;
  FullConfig_TimeoutSecs : Z;
  FullConfig_Logger : LoggerConfig }.

(** [for key, value := range required]: Go visits the two keys of the
    map in either order. *)
Definition required_keys (apple_first : bool) : list string :=
  if apple_first then ["APPLE_API_URL"; "PORT"] else ["PORT"; "APPLE_API_URL"].

Fixpoint check_required (getenv : string -> string) (keys : list string) : option string :=
  match keys with
  | [] => None
  | key :: keys' =>
      if String.eqb (getenv key) "" then Some ("required environment variable " +:+ key +:+ " is not set")
      else check_required getenv keys'
  end.

(** [config.LoadConfig].  [getenv] is the environment after
    [godotenv.Load()] (whose failure is only logged); the two [Atoi]
    errors are discarded, their values kept. *)
Definition LoadConfig (getenv : string -> string) (apple_first : bool) : result FullConfig :=
  let timeoutSecs := Atoi_value (getenv "REQUEST_TIMEOUT") in
  let appPort := Atoi_value (getenv "PORT") in
  match check_required getenv (required_keys apple_first) with
  | Some msg => Error msg
  | None =>
      Ok (mkFullConfig appPort
            (mkConfig (getenv "APPLE_API_URL") (getenv "APPLE_REVIEWS_BASE_URL")
                      (getenv "APPS_STORAGE_FILE") (getenv "REVIEWS_STORAGE_FILE"))
            timeoutSecs
            (mkLoggerConfig (getenv "LOG_LEVEL") (getenv "LOG_FILE_PATH")))
  end.

(** [main]: [http.Client{Timeout: time.Duration(cfg.TimeoutSecs * 10000000000000000)}],
    the product taken in 64-bit [int]; a [Timeout] of zero or less sets no
    deadline in [net/http]. *)
Definition main_client_Timeout (cfg : FullConfig) : Z :=
  int64_wrap (FullConfig_TimeoutSecs cfg * 10000000000000000).

(** The front end ([AppList.js]): a property read [o.k] on a value of
    [response.json()] gives the value of the key ([JSON.parse] keeps the
    last of repeated keys), or [undefined] ([None]) when the key is absent
    or [o] is not an object. *)
Fixpoint js_prop_kvs (kvs : list (string * json)) (k : string) : option json :=
  match kvs with
  | [] => None
  | (k', v) :: kvs' =>
      match js_prop_kvs kvs' k with
      | Some x => Some x
      | None => if String.eqb k' k then Some v else None
      end
  end.

Definition js_prop (o : json) (k : string) : option json :=
  match o with JObject kvs => js_prop_kvs kvs k | _ => None end.

(** What one card of [AppList] reads from an app: [app.id] (the key),
    [app.artwork_url], [app.name], [app.artistName], [app.releaseDate]. *)
Record AppCard := mkAppCard {
  AppCard_Key : option json; AppCard_Image : option json; AppCard_Name : option json;
  AppCard_Artist : option json; AppCard_Released : option json }.

Definition AppList_card (app : json) : AppCard :=
  mkAppCard (js_prop app "id") (js_prop app "artwork_url") (js_prop app "name")
            (js_prop app "artistName") (js_prop app "releaseDate").

(** The URL [GetAppReviewsFromApi] fetches. *)
Definition reviews_url (s : AppService) (appID : string) : string :=
  ReviewsBaseUrl (AppService_Config s) +:+ "/id=" +:+ appID +:+ "/sortBy=mostRecent/page=1/json".

(* ------------------------------------------------------------------ *)
(** ** Link resolution as the spec states it                             *)
(* ------------------------------------------------------------------ *)

(** The resolved link(s) of a raw ["link"] value: the single object, else
    the elements of the array. *)
Definition resolve_links (raw : option json) : option (list Link) :=
  match unmarshal_raw dec_Link Link_zero raw with
  | Some l => Some [l]
  | None => unmarshal_raw (dec_slice dec_Link Link_zero) [] raw
  end.

(** The spec's canonical URL: the href of the first link with relation
    "alternate" and type "text/html", or the empty string. *)
Definition canonical_url (ls : list Link) : string :=
  match List.find is_alternate_html ls with
  | Some l => Link_Href (Link_Attributes l)
  | None => ""
  end.

(* ------------------------------------------------------------------ *)
(** ** Request validation: the spec's rule and the handler's rule         *)
(* ------------------------------------------------------------------ *)

Definition has_key (q : Values) (key : string) : bool :=
  existsb (fun kv => String.eqb (fst kv) key) q.

(** The spec's rule: 400 when [id] is missing, or [hours] is present but
    non-numeric or negative. *)
Definition spec_bad_request (q : Values) : bool :=
  negb (has_key q "id") ||
  (has_key q "hours" &&
   match Atoi (Values_Get q "hours") with Ok n => n <? 0 | Error _ => true end).

(** The rule [AppReviewsHandler] follows: the first [id] value is empty
    (missing or [id=]), or the first [hours] value is non-empty and
    [strconv.Atoi] rejects it (also when out of the 64-bit range) or it
    is negative. *)
Definition handler_bad_request (q : Values) : bool :=
  String.eqb (Values_Get q "id") "" ||
  (negb (String.eqb (Values_Get q "hours") "") &&
   match Atoi (Values_Get q "hours") with Ok n => n <? 0 | Error _ => true end).

(* ------------------------------------------------------------------ *)
(** ** Fixtures (as in app_service_test.go)                              *)
(* ------------------------------------------------------------------ *)

Definition label_obj (s : string) : json := JObject [("label", JString s)].

Definition review_json (id author content rating updated : string) : json :=
  JObject [("id", label_obj id); ("author", JObject [("name", label_obj author)]);
           ("content", label_obj content); ("im:rating", label_obj rating);
           ("updated", label_obj updated)].

Definition feed_json (entries : list json) : json :=
  JObject [("feed", JObject [("entry", JArray entries)])].

(** A catalog body with its ["feed"] key and, in it, its ["entry"] key
    among other keys. *)
Definition catalog_json (kvs1 fkvs1 : list (string * json)) (entries : list json)
    (fkvs2 kvs2 : list (string * json)) : json :=
  JObject (kvs1 ++ ("feed", JObject (fkvs1 ++ ("entry", JArray entries) :: fkvs2)) :: kvs2).

Definition valid_reviews_json : json :=
  feed_json [review_json "1" "User1" "Great app!" "5" "2023-08-21T09:00:00Z";
             review_json "2" "User2" "It's ok." "3" "2023-08-21T08:00:00Z";
             review_json "3" "User3" "Terrible." "1" "2023-08-20T00:00:00Z"].

Definition link_json (rel type_ href : string) : json :=
  JObject [("attributes", JObject [("rel", JString rel); ("type", JString type_); ("href", JString href)])].

(** A catalog entry with the given ["link"] value. *)
Definition app_json (name link : json) : json :=
  JObject [("id", JObject [("label", JString "https://apps.apple.com/us/app/test-app-1/id123456789?uo=2");
                           ("attributes", JObject [("im:id", JString "123456789"); ("im:bundleId", JString "com.test.app1")])]);
           ("im:name", name);
           ("im:artist", JObject [("label", JString "Test Artist 1")]);
           ("im:image", JArray [JObject [("label", JString "https://example.com/icon.png");
                                         ("attributes", JObject [("height", JString "100")])]]);
           ("link", link)].

Definition test_link : json :=
  link_json "alternate" "text/html" "https://apps.apple.com/us/app/test-app-1/id123456789?uo=2".

Definition test_config : Config :=
  mkConfig "http://mock-api.com/apps" "http://mock-api.com/reviews"
           "/tmp/testdata/apps.json" "/tmp/testdata/reviews".

Definition test_service : AppService := mkAppService test_config.

(** Every URL answers [200] with [body]; nothing on disk; all writable. *)
Definition test_world (now : Z) (body : json) : World :=
  mkWorld ∅ (fun _ => true) now (fun _ => Response 200 (Some (PJson body))) [].

(** 2023-08-21T09:00:01Z. *)
Definition test_now : Z := 1692608401000000000.

Definition bad_timestamp_feed : json :=
  feed_json [review_json "1" "User1" "Great app!" "5" "yesterday"].

(** 2026-10-14T00:00:00Z. *)
Definition now_2026 : Z := 1791936000000000000.

Definition recent_review_feed : json :=
  feed_json [review_json "1" "User1" "Great app!" "5" "2026-10-13T23:00:00Z"].

Definition bad_rating_world : World :=
  test_world test_now (feed_json [review_json "1" "User1" "Great app!" "five" "2023-08-21T09:00:00Z";
                                  review_json "2" "User2" "It's ok." "3" "2023-08-21T08:00:00Z"]).

Definition fetched_reviews (s : AppService) (appID : string) (w : World) : list Review :=
  match fst (AppService_GetAppReviewsFromApi s appID w) with Ok r => r | Error _ => [] end.

Definition bad_rating_review : Review :=
  hd Review_zero (fetched_reviews test_service "123" bad_rating_world).

Definition recent_review_world : World := test_world now_2026 recent_review_feed.

Definition test_handlers : Handlers AppService := mkHandlers test_service test_config.

(** The first catalog entry of the test feed, and its decoded [App]. *)
Definition test_entry : json := app_json (JObject [("label", JString "Test App 1")]) test_link.
Definition test_app : App :=
  match App_UnmarshalJSON test_entry App_zero with Some a => a | None => App_zero end.

(** What [GetApps] counts as a cache miss: the load failed or found no app. *)
Definition apps_cache_miss (r : result (list App)) : Prop :=
  match r with Ok (_ :: _) => False | _ => True end.

(** The world after [http.Get(url)] has been recorded. *)
Definition after_get (url : string) (w : World) : World :=
  mkWorld (fs w) (writable w) (clock w) (upstream w) (url :: requests w).

(** A catalog of one entry served for every URL. *)
Definition catalog_world : World := test_world test_now (feed_json [test_entry]).

(** An entry whose ["link"] is an array, and a catalog whose second entry
    has a number as its name. *)
Definition array_link_entry : json := app_json (label_obj "Test App 1") (JArray [test_link]).
Definition bad_name_catalog : json :=
  catalog_json [] [] [test_entry; app_json (JNumber "5") test_link] [] [].

(** A catalog whose ["entry"] key is repeated: the second array is decoded
    into the entries of the first. *)
Definition repeated_entry_catalog : json :=
  JObject [("feed", JObject [("entry", JArray [app_json (label_obj "A") (JArray [link_json "alternate" "text/html" "first"])]);
                             ("entry", JArray [app_json (label_obj "A") (link_json "alternate" "text/html" "second")])])].

(** The decoded catalog of [catalog_world]. *)
Definition catalog_root : Root :=
  match dec_Root (feed_json [test_entry]) Root_zero with Some r => r | None => Root_zero end.

(** An apps cache holding the test app; the network is down. *)
Definition cached_world : World :=
  mkWorld {[ "/tmp/testdata/apps.json" := PJson (marshal_slice marshal_App (Some [test_app])) ]}
          (fun _ => true) test_now (fun _ => TransportError "connection refused") [].

(** An apps cache holding an empty array. *)
Definition empty_cache_world : World :=
  mkWorld {[ "/tmp/testdata/apps.json" := PJson (JArray []) ]} (fun _ => true) test_now
          (fun _ => Response 200 (Some (PJson (feed_json [test_entry])))) [].

(** An entry with a name but no ["link"] key. *)
Definition no_link_kvs : list (string * json) := [("im:name", JObject [("label", JString "No Link")])].

Definition no_link_base : App :=
  match dec_fields App_alias_fields no_link_kvs App_zero with Some a => a | None => App_zero end.

(** An environment with the API URL set and a port that is no number. *)
Definition test_env (k : string) : string :=
  if String.eqb k "APPLE_API_URL" then "http://mock-api.com/apps"
  else if String.eqb k "PORT" then "eighty" else "".

(* ------------------------------------------------------------------ *)
(** ** Checks of the model on concrete inputs                           *)
(* ------------------------------------------------------------------ *)

Example Atoi_ex1 : Atoi "42" = Ok 42. Proof. reflexivity. Qed.
Example Atoi_ex2 : Atoi "-1" = Ok (-1). Proof. reflexivity. Qed.
Example Atoi_ex3 : is_error (Atoi "five") = true. Proof. reflexivity. Qed.
Example Atoi_ex4 : is_error (Atoi "+") = true. Proof. reflexivity. Qed.
Example Atoi_ex5 : is_error (Atoi "9223372036854775808") = true.
Proof. reflexivity. Qed.
Example parse_ex1 : time_Parse_RFC3339 "1970-01-01T00:00:00Z" = Some 0.
Proof. reflexivity. Qed.
Example parse_ex2 : time_Parse_RFC3339 "2023-08-21T09:00:00Z" = Some 1692608400000000000.
Proof. reflexivity. Qed.
Example parse_ex3 : time_Parse_RFC3339 "1970-01-01T01:00:00+01:00" = Some 0.
Proof. reflexivity. Qed.
Example parse_ex4 : time_Parse_RFC3339 "1970-01-01T00:00:00.5Z" = Some 500000000.
Proof. reflexivity. Qed.
Example parse_ex5 : time_Parse_RFC3339 "2023-02-29T00:00:00Z" = None.
Proof. reflexivity. Qed.
Example parse_ex6 : time_Parse_RFC3339 "yesterday" = None.
Proof. reflexivity. Qed.

Example GetReviews_all_ex :
  option_map (@length _) (match fst (AppService_GetReviews test_service "123" 0 (test_world test_now valid_reviews_json)) with
                   | Ok rs => Some rs | Error _ => None end) = Some 3%nat.
Proof. vm_compute. reflexivity. Qed.

Example GetReviews_24h_ex :
  option_map (map ReviewResponse_ID)
    (match fst (AppService_GetReviews test_service "123" 24 (test_world test_now valid_reviews_json)) with
     | Ok rs => Some rs | Error _ => None end) = Some ["1"; "2"].
Proof. vm_compute. reflexivity. Qed.

Example app_decode_ex :
  option_map (fun a => AppResponse_URL <$> fst (ToAppResponse a))
    (App_UnmarshalJSON (app_json (label_obj "Test App 1") test_link) App_zero)
  = Some (Some "https://apps.apple.com/us/app/test-app-1/id123456789?uo=2").
Proof. vm_compute. reflexivity. Qed.

Example app_decode_array_ex :
  option_map (fun a => AppResponse_URL <$> fst (ToAppResponse a))
    (App_UnmarshalJSON (app_json (label_obj "Test App 1")
       (JArray [link_json "related" "text/html" "x"; test_link])) App_zero)
  = Some (Some "https://apps.apple.com/us/app/test-app-1/id123456789?uo=2").
Proof. vm_compute. reflexivity. Qed.

(* ------------------------------------------------------------------ *)
(** ** Review conversion and filtering                                    *)
(* ------------------------------------------------------------------ *)

Definition keep_recent (cutoff : Z) (review : Review) : bool :=
  match time_Parse_RFC3339 (LabelField_Label (Review_Timestamp review)) with
  | Some t => Time_After t cutoff
  | None => false
  end.

Lemma filter_recent_filter cutoff reviews :
  filter_recent cutoff reviews = List.filter (keep_recent cutoff) reviews.
Proof.
  induction reviews as [|r rs IH]; simpl; [reflexivity|].
  unfold keep_recent. destruct (time_Parse_RFC3339 _); [|exact IH].
  destruct (Time_After _ _); [f_equal|]; exact IH.
Qed.

Lemma filter_recent_In cutoff reviews r :
  In r (filter_recent cutoff reviews) <->
  In r reviews /\ exists t, time_Parse_RFC3339 (LabelField_Label (Review_Timestamp r)) = Some t /\ cutoff < t.
Proof.
  rewrite filter_recent_filter, filter_In. unfold keep_recent, Time_After.
  destruct (time_Parse_RFC3339 _) as [t|].
  - split; intros [Hin H]; split; auto.
    + exists t. split; [reflexivity|]. apply Z.ltb_lt. exact H.
    + destruct H as [t' [Ht' Hlt]]. injection Ht' as <-. apply Z.ltb_lt. exact Hlt.
  - split; intros [Hin H]; [discriminate|]. destruct H as [t' [Ht' _]]. discriminate.
Qed.

Lemma convertReviews_Ok reviews rs :
  convertReviews reviews = Ok rs ->
  Forall2 (fun r rr => ToReviewResponse r = Ok rr) reviews rs.
Proof.
  revert rs. induction reviews as [|r rest IH]; intros rs H; simpl in H.
  - injection H as <-. constructor.
  - destruct (ToReviewResponse r) as [rr|e] eqn:E; [|discriminate].
    destruct (convertReviews rest) as [rrs|e] eqn:E2; [|discriminate].
    injection H as <-. constructor; [exact E|]. apply IH. reflexivity.
Qed.

Lemma ToReviewResponse_Time r rr :
  ToReviewResponse r = Ok rr ->
  ReviewResponse_Time rr = LabelField_Label (Review_Timestamp r).
Proof.
  unfold ToReviewResponse. destruct (Atoi _); intros H; [|discriminate].
  injection H as <-. reflexivity.
Qed.

Lemma ToReviewResponse_error r :
  is_error (ToReviewResponse r) = is_error (Atoi (LabelField_Label (Review_Rating r))).
Proof. unfold ToReviewResponse. destruct (Atoi _); reflexivity. Qed.

Lemma convertReviews_error reviews :
  is_error (convertReviews reviews) = true <->
  exists r, In r reviews /\ is_error (Atoi (LabelField_Label (Review_Rating r))) = true.
Proof.
  induction reviews as [|r rest IH]; simpl.
  - split; [discriminate|]. intros [r [[] _]].
  - pose proof (ToReviewResponse_error r) as Hr.
    destruct (ToReviewResponse r) as [rr|e] eqn:E; simpl in *.
    + destruct (convertReviews rest) as [rrs|e] eqn:E2; simpl in *.
      * split; [discriminate|]. intros [r' [[<-|Hin] Hbad]].
        -- rewrite <- Hr in Hbad. discriminate.
        -- apply IH. eauto.
      * split; [intros _|reflexivity]. destruct (proj1 IH eq_refl) as [r' [Hin Hbad]]. eauto.
    + split; [intros _|reflexivity]. exists r. split; [left; reflexivity|]. rewrite <- Hr. reflexivity.
Qed.

(** [GetReviews] once the upstream reviews are known. *)
Lemma GetReviews_fetched s appID hours w revs w1 :
  AppService_GetAppReviewsFromApi s appID w = (Ok revs, w1) ->
  AppService_GetReviews s appID hours w =
    (if hours =? 0 then convertReviews revs
     else convertReviews (filter_recent (cutoff_of (clock w1) hours) revs), w1).
Proof.
  intros H. unfold AppService_GetReviews, bind. rewrite H.
  destruct (hours =? 0); reflexivity.
Qed.

Lemma GetReviews_fetched_fst s appID hours w revs :
  fst (AppService_GetAppReviewsFromApi s appID w) = Ok revs ->
  fst (AppService_GetReviews s appID hours w) =
    (if hours =? 0 then convertReviews revs
     else convertReviews (filter_recent (cutoff_of (clock (snd (AppService_GetAppReviewsFromApi s appID w))) hours) revs)).
Proof.
  intros H. rewrite (GetReviews_fetched s appID hours w revs (snd (AppService_GetAppReviewsFromApi s appID w))).
  - reflexivity.
  - rewrite <- H. destruct (AppService_GetAppReviewsFromApi s appID w); reflexivity.
Qed.

(** Without overflow of the [Duration] product, the cutoff is
    [now - hours] hours. *)
Lemma cutoff_of_exact now hours :
  0 <= hours <= 2562047 -> cutoff_of now hours = now - hours * time_Hour.
Proof.
  intros H. unfold cutoff_of, Time_Add, int64_wrap, time_Hour.
  rewrite (Z.mod_small (- hours + 2 ^ 63)) by lia.
  rewrite Z.mod_small by lia. lia.
Qed.

(** The review window for windows whose [Duration] does not overflow:
    exactly the reviews with a parseable timestamp strictly after the
    cutoff, in upstream order, are converted. *)
Lemma GetReviews_window_exact s appID hours w revs :
  fst (AppService_GetAppReviewsFromApi s appID w) = Ok revs ->
  0 < hours <= 2562047 ->
  let now := clock (snd (AppService_GetAppReviewsFromApi s appID w)) in
  fst (AppService_GetReviews s appID hours w) =
    convertReviews (List.filter (fun r =>
      match time_Parse_RFC3339 (LabelField_Label (Review_Timestamp r)) with
      | Some t => now - hours * time_Hour <? t
      | None => false
      end) revs).
Proof.
  intros Hf Hh now. rewrite (GetReviews_fetched_fst s appID hours w revs Hf).
  replace (hours =? 0) with false by lia.
  rewrite filter_recent_filter, cutoff_of_exact by lia. reflexivity.
Qed.

Example now_2026_ex : time_Parse_RFC3339 "2026-10-14T00:00:00Z" = Some now_2026.
Proof. vm_compute. reflexivity. Qed.

(* ------------------------------------------------------------------ *)
(** ** Claims about [GetReviews]                                          *)
(* ------------------------------------------------------------------ *)

(** C1 (counterexample): with window 0 a review whose timestamp is
    ["yesterday"], which does not parse as RFC3339, is returned. *)
Lemma C1_window0_keeps_unparseable :
  match fst (AppService_GetReviews test_service "123" 0 (test_world test_now bad_timestamp_feed)) with
  | Ok rs => existsb (fun rr => match time_Parse_RFC3339 (ReviewResponse_Time rr) with
                               | None => true | Some _ => false end) rs = true
  | Error _ => False
  end.
Proof. vm_compute. reflexivity. Qed.

(** C1 (amended): for every window other than 0, every review returned
    by [GetReviews] has a timestamp that parses as RFC3339; with window 0
    the fetched reviews are converted unfiltered, whatever their
    timestamps. *)
Theorem C1_unparseable_dropped_unless_window0 s appID hours w revs :
  fst (AppService_GetAppReviewsFromApi s appID w) = Ok revs ->
  (hours <> 0 -> forall rs, fst (AppService_GetReviews s appID hours w) = Ok rs ->
     Forall (fun rr => exists t, time_Parse_RFC3339 (ReviewResponse_Time rr) = Some t) rs) /\
  (hours = 0 -> fst (AppService_GetReviews s appID hours w) = convertReviews revs).
Proof.
  intros Hf. rewrite (GetReviews_fetched_fst s appID hours w revs Hf). split.
  - intros Hh rs Hc. replace (hours =? 0) with false in Hc by lia.
    apply convertReviews_Ok in Hc.
    assert (Hp : Forall (fun r => exists t, time_Parse_RFC3339 (LabelField_Label (Review_Timestamp r)) = Some t)
                   (filter_recent (cutoff_of (clock (snd (AppService_GetAppReviewsFromApi s appID w))) hours) revs)).
    { apply List.Forall_forall. intros r Hr. apply filter_recent_In in Hr.
      destruct Hr as [_ [t [Ht _]]]. eauto. }
    revert Hp. induction Hc as [|r rr l rs' Hr _ IH]; intros Hp; constructor.
    + rewrite (ToReviewResponse_Time r rr Hr). inversion Hp; assumption.
    + apply IH. inversion Hp; assumption.
  - intros ->. reflexivity.
Qed.

Lemma C1_unparseable_dropped_unless_window0_witness :
  (24 <> 0 -> forall rs, fst (AppService_GetReviews test_service "123" 24 (test_world test_now valid_reviews_json)) = Ok rs ->
     Forall (fun rr => exists t, time_Parse_RFC3339 (ReviewResponse_Time rr) = Some t) rs) /\
  (24 = 0 -> fst (AppService_GetReviews test_service "123" 24 (test_world test_now valid_reviews_json)) =
             convertReviews (match fst (AppService_GetAppReviewsFromApi test_service "123" (test_world test_now valid_reviews_json)) with
                             | Ok r => r | Error _ => [] end)).
Proof.
  apply (C1_unparseable_dropped_unless_window0 test_service "123" 24 (test_world test_now valid_reviews_json)
           (match fst (AppService_GetAppReviewsFromApi test_service "123" (test_world test_now valid_reviews_json)) with
            | Ok r => r | Error _ => [] end)).
  vm_compute. reflexivity.
Defined.

(** C2: a review whose rating label is not a base-10 integer makes the
    conversion of any list containing it fail as a whole (an error and
    no list), and so [GetReviews] fails whenever that review is among the
    reviews it converts: all fetched reviews for window 0, the reviews
    inside the window otherwise. *)
Theorem C2_bad_rating_aborts_batch s appID hours w revs bad :
  fst (AppService_GetAppReviewsFromApi s appID w) = Ok revs ->
  is_error (Atoi (LabelField_Label (Review_Rating bad))) = true ->
  (forall l, In bad l -> exists e, convertReviews l = Error e) /\
  (hours = 0 -> In bad revs -> exists e, fst (AppService_GetReviews s appID hours w) = Error e) /\
  (hours <> 0 -> In bad (filter_recent (cutoff_of (clock (snd (AppService_GetAppReviewsFromApi s appID w))) hours) revs) ->
     exists e, fst (AppService_GetReviews s appID hours w) = Error e).
Proof.
  intros Hf Hbad.
  assert (Hl : forall l, In bad l -> exists e, convertReviews l = Error e).
  { intros l Hin. assert (He : is_error (convertReviews l) = true)
      by (apply convertReviews_error; eauto).
    destruct (convertReviews l) as [x|e]; [discriminate|eauto]. }
  split; [exact Hl|]. rewrite (GetReviews_fetched_fst s appID hours w revs Hf). split.
  - intros -> Hin. apply Hl. exact Hin.
  - intros Hh Hin. replace (hours =? 0) with false by lia. apply Hl. exact Hin.
Qed.

Lemma C2_bad_rating_aborts_batch_witness :
  (forall l, In bad_rating_review l -> exists e, convertReviews l = Error e) /\
  (0 = 0 -> In bad_rating_review (fetched_reviews test_service "123" bad_rating_world) ->
     exists e, fst (AppService_GetReviews test_service "123" 0 bad_rating_world) = Error e) /\
  (0 <> 0 -> In bad_rating_review
       (filter_recent (cutoff_of (clock (snd (AppService_GetAppReviewsFromApi test_service "123" bad_rating_world))) 0)
          (fetched_reviews test_service "123" bad_rating_world)) ->
     exists e, fst (AppService_GetReviews test_service "123" 0 bad_rating_world) = Error e).
Proof.
  apply (C2_bad_rating_aborts_batch test_service "123" 0 bad_rating_world
           (fetched_reviews test_service "123" bad_rating_world) bad_rating_review);
  vm_compute; reflexivity.
Defined.

(** C3 (at the failing input): for a window of 2562048 hours the product
    [time.Duration(-hours) * time.Hour] wraps around int64 to about
    +292 years, so the cutoff lies in the future.  A review written one
    hour before "now", strictly after now - 2562048 hours, is dropped:
    [GetReviews] returns no review. *)
Theorem C3_window_overflow_drops_recent :
  time_Parse_RFC3339 "2026-10-13T23:00:00Z" = Some (now_2026 - time_Hour) /\
  clock recent_review_world = now_2026 /\
  now_2026 - 2562048 * time_Hour < now_2026 - time_Hour /\
  cutoff_of now_2026 2562048 = now_2026 + 9223371273709551616 /\
  fst (AppService_GetReviews test_service "123" 2562048 recent_review_world) = Ok [].
Proof.
  split; [vm_compute; reflexivity|]. split; [reflexivity|].
  split; [unfold time_Hour; lia|]. split; vm_compute; reflexivity.
Qed.

(** For comparison: with the largest window that does not overflow the
    same review is returned. *)
Example recent_review_kept_ex :
  option_map (map ReviewResponse_ID)
    (match fst (AppService_GetReviews test_service "123" 2562047 recent_review_world) with
     | Ok rs => Some rs | Error _ => None end) = Some ["1"].
Proof. vm_compute. reflexivity. Qed.

(* ------------------------------------------------------------------ *)
(** ** Decoding structure of [App.UnmarshalJSON]                          *)
(* ------------------------------------------------------------------ *)

Lemma dec_fields_app {T} (fs : list (string * decoder T)) kvs1 kvs2 cur :
  dec_fields fs (kvs1 ++ kvs2) cur = opt_bind (dec_fields fs kvs1 cur) (dec_fields fs kvs2).
Proof.
  revert cur. induction kvs1 as [|[k v] kvs1 IH]; intros cur; simpl; [reflexivity|].
  destruct (lookup_field k fs) as [d|]; [|apply IH].
  destruct (d v cur); simpl; [apply IH|reflexivity].
Qed.

Lemma lookup_field_In {T} (fs : list (string * decoder T)) k d :
  lookup_field k fs = Some d -> exists n, In (n, d) fs /\ fold_eqb k n = true.
Proof.
  induction fs as [|[n d'] fs IH]; simpl; [discriminate|].
  destruct (fold_eqb k n) eqn:E; intros H.
  - injection H as <-. eauto.
  - destruct (IH H) as [n' [Hin Heq]]. eauto.
Qed.

(** Every field decoder of the alias leaves [LinkSingle] and [LinkMulti]
    alone, and every one but ["link"] also commutes with setting
    [LinkRaw]. *)
Lemma alias_field_links n d v e e' :
  In (n, d) App_alias_fields -> d v e = Some e' ->
  App_LinkSingle e' = App_LinkSingle e /\ App_LinkMulti e' = App_LinkMulti e.
Proof.
  intros Hin. simpl in Hin.
  repeat (destruct Hin as [Hin|Hin]; [injection Hin as <- <-; unfold fld;
    match goal with |- context [let? x := ?o in _] => destruct o end; simpl;
    [intros H; injection H as <-; destruct e; split; reflexivity | discriminate] |]).
  destruct Hin.
Qed.

Lemma alias_links kvs e e' :
  dec_fields App_alias_fields kvs e = Some e' ->
  App_LinkSingle e' = App_LinkSingle e /\ App_LinkMulti e' = App_LinkMulti e.
Proof.
  revert e. induction kvs as [|[k v] kvs IH]; intros e; cbn [dec_fields].
  - intros H. injection H as <-. split; reflexivity.
  - destruct (lookup_field k App_alias_fields) as [d|] eqn:El; [|apply IH].
    destruct (d v e) as [e1|] eqn:Ed; simpl; [|discriminate].
    intros H. destruct (IH e1 H) as [H1 H2].
    destruct (lookup_field_In _ _ _ El) as [n [Hin _]].
    destruct (alias_field_links n d v e e1 Hin Ed) as [H3 H4].
    rewrite H1, H2, H3, H4. split; reflexivity.
Qed.

Lemma alias_field_LinkRaw n d v e r :
  In (n, d) App_alias_fields -> n <> "link" ->
  d v (set_App_LinkRaw e r) = option_map (fun e' => set_App_LinkRaw e' r) (d v e).
Proof.
  intros Hin Hn. simpl in Hin.
  repeat (destruct Hin as [Hin|Hin]; [injection Hin as <- <-; unfold fld; destruct e; simpl;
    first [ congruence |
      match goal with |- opt_bind ?o _ = option_map _ (opt_bind ?o _) => destruct o end; reflexivity ] |]).
  destruct Hin.
Qed.

Lemma alias_LinkRaw_commute kvs e r :
  Forall (fun kv => fold_eqb (fst kv) "link" = false) kvs ->
  dec_fields App_alias_fields kvs (set_App_LinkRaw e r) =
  option_map (fun e' => set_App_LinkRaw e' r) (dec_fields App_alias_fields kvs e).
Proof.
  revert e. induction kvs as [|[k v] kvs IH]; intros e Hk; cbn [dec_fields]; [reflexivity|].
  inversion Hk as [|? ? Hk1 Hk2]; subst. simpl in Hk1.
  destruct (lookup_field k App_alias_fields) as [d|] eqn:El; [|apply IH; exact Hk2].
  destruct (lookup_field_In _ _ _ El) as [n [Hin Hkn]].
  assert (Hn : n <> "link") by (intros ->; congruence).
  rewrite (alias_field_LinkRaw n d v e r Hin Hn).
  destruct (d v e) as [e1|]; simpl; [apply IH; exact Hk2|reflexivity].
Qed.

Lemma dec_link_key e L :
  dec_fields App_alias_fields [("link", L)] e = Some (set_App_LinkRaw e (Some L)).
Proof. destruct e; reflexivity. Qed.

(** The alias decoding of an entry with its ["link"] key between other
    keys. *)
Lemma alias_decode_with_link kvs1 kvs2 L base :
  Forall (fun kv => fold_eqb (fst kv) "link" = false) kvs2 ->
  dec_fields App_alias_fields (kvs1 ++ kvs2) App_zero = Some base ->
  dec_struct App_alias_fields (JObject (kvs1 ++ ("link", L) :: kvs2)) App_zero =
    Some (set_App_LinkRaw base (Some L)).
Proof.
  intros Hk Hb. unfold dec_struct. rewrite dec_fields_app in Hb |- *.
  destruct (dec_fields App_alias_fields kvs1 App_zero) as [b1|]; cbn [opt_bind] in *; [|discriminate].
  change (("link", L) :: kvs2) with ([("link", L)] ++ kvs2).
  rewrite dec_fields_app, dec_link_key. cbn [opt_bind].
  rewrite alias_LinkRaw_commute by exact Hk. rewrite Hb. reflexivity.
Qed.

Lemma singleton_link_not_single L : dec_Link (JArray [L]) Link_zero = None.
Proof. reflexivity. Qed.

Lemma singleton_link_multi L l :
  dec_Link L Link_zero = Some l ->
  dec_slice dec_Link Link_zero (JArray [L]) [] = Some [l].
Proof. intros H. simpl. rewrite H. reflexivity. Qed.

(* ------------------------------------------------------------------ *)
(** ** Claims about link resolution and [ToAppResponse]                   *)
(* ------------------------------------------------------------------ *)

(** C4: for every link value [L] (a JSON value that decodes as a [Link])
    and every other content of a catalog entry that decodes, the entry
    with ["link": L] and the entry with ["link": [L]] both decode, and
    map to the same [AppResponse], in particular the same canonical URL. *)
Theorem C4_single_and_singleton_link_same_url kvs1 kvs2 L l base :
  dec_Link L Link_zero = Some l ->
  Forall (fun kv => fold_eqb (fst kv) "link" = false) kvs2 ->
  dec_fields App_alias_fields (kvs1 ++ kvs2) App_zero = Some base ->
  exists a1 a2,
    App_UnmarshalJSON (JObject (kvs1 ++ ("link", L) :: kvs2)) App_zero = Some a1 /\
    App_UnmarshalJSON (JObject (kvs1 ++ ("link", JArray [L]) :: kvs2)) App_zero = Some a2 /\
    fst (ToAppResponse a1) = fst (ToAppResponse a2) /\
    AppResponse_URL <$> fst (ToAppResponse a1) =
      Some (if is_alternate_html l then Link_Href (Link_Attributes l) else "").
Proof.
  intros HL Hk Hb.
  destruct (alias_links _ _ _ Hb) as [Hs Hm].
  unfold App_UnmarshalJSON.
  rewrite (alias_decode_with_link kvs1 kvs2 L base Hk Hb).
  rewrite (alias_decode_with_link kvs1 kvs2 (JArray [L]) base Hk Hb). cbn [opt_bind].
  destruct base; simpl in Hs, Hm |- *. subst.
  unfold unmarshal_raw. rewrite ?singleton_link_not_single, ?(singleton_link_multi L l HL).
  simpl. rewrite ?HL.
  eexists _, _. split; [reflexivity|]. split; [reflexivity|].
  unfold ToAppResponse. simpl.
  destruct (is_alternate_html l); split; reflexivity.
Qed.

Lemma C4_single_and_singleton_link_same_url_witness :
  exists a1 a2,
    App_UnmarshalJSON (JObject ([("im:name", label_obj "Test App 1")] ++ ("link", test_link) :: [("id", label_obj "x")])) App_zero = Some a1 /\
    App_UnmarshalJSON (JObject ([("im:name", label_obj "Test App 1")] ++ ("link", JArray [test_link]) :: [("id", label_obj "x")])) App_zero = Some a2 /\
    fst (ToAppResponse a1) = fst (ToAppResponse a2) /\
    AppResponse_URL <$> fst (ToAppResponse a1) =
      Some (if is_alternate_html (mkLink (mkLink_Attributes "alternate" "text/html" "https://apps.apple.com/us/app/test-app-1/id123456789?uo=2" "" "" ""))
            then Link_Href (Link_Attributes (mkLink (mkLink_Attributes "alternate" "text/html" "https://apps.apple.com/us/app/test-app-1/id123456789?uo=2" "" "" ""))) else "").
Proof.
  apply (C4_single_and_singleton_link_same_url [("im:name", label_obj "Test App 1")] [("id", label_obj "x")]
           test_link (mkLink (mkLink_Attributes "alternate" "text/html" "https://apps.apple.com/us/app/test-app-1/id123456789?uo=2" "" "" ""))
           (match dec_fields App_alias_fields ([("im:name", label_obj "Test App 1")] ++ [("id", label_obj "x")]) App_zero with
            | Some b => b | None => App_zero end)).
  - vm_compute. reflexivity.
  - repeat constructor.
  - vm_compute. reflexivity.
Defined.

(** C5 (counterexample): an entry whose ["link"] is a valid single link
    object but whose ["im:name"] is a number fails to decode, although
    neither link attempt fails. *)
Lemma C5_other_field_makes_entry_fail :
  App_UnmarshalJSON (app_json (JNumber "5") test_link) App_zero = None /\
  dec_Link test_link Link_zero <> None /\
  ~ (App_UnmarshalJSON (app_json (JNumber "5") test_link) App_zero = None <->
     (dec_Link test_link Link_zero = None /\ dec_slice dec_Link Link_zero test_link [] = None)).
Proof.
  split; [reflexivity|]. split; [discriminate|].
  vm_compute. intros [H _]. destruct (H eq_refl) as [Hc _]. discriminate.
Qed.

Lemma scan_links_canonical ls : scan_links ls = canonical_url ls.
Proof.
  unfold canonical_url. induction ls as [|l ls IH]; simpl; [reflexivity|].
  destruct (is_alternate_html l); [reflexivity|exact IH].
Qed.

Lemma alias_struct_links data e e1 :
  dec_struct App_alias_fields data e = Some e1 ->
  App_LinkSingle e1 = App_LinkSingle e /\ App_LinkMulti e1 = App_LinkMulti e.
Proof.
  destruct data; simpl; try discriminate.
  - intros H. injection H as <-. split; reflexivity.
  - apply alias_links.
Qed.

(** C6: for every catalog entry decoded from its JSON, the canonical URL
    of its response is the href of the first resolved link whose
    relation is "alternate" and type "text/html", and [""] when none
    matches. *)
Theorem C6_canonical_url_first_match data a :
  App_UnmarshalJSON data App_zero = Some a ->
  exists ls, resolve_links (App_LinkRaw a) = Some ls /\
             AppResponse_URL <$> fst (ToAppResponse a) = Some (canonical_url ls).
Proof.
  unfold App_UnmarshalJSON, resolve_links.
  destruct (dec_struct App_alias_fields data App_zero) as [e1|] eqn:He; cbn [opt_bind]; [|discriminate].
  destruct (alias_struct_links _ _ _ He) as [Hs Hm].
  destruct e1; simpl in Hs, Hm |- *. subst.
  destruct (unmarshal_raw dec_Link Link_zero App_LinkRaw0) as [l|] eqn:E1.
  - intros H. injection H as <-. exists [l]. simpl. rewrite E1. split; [reflexivity|].
    unfold canonical_url. simpl. destruct (is_alternate_html l); reflexivity.
  - destruct (unmarshal_raw (dec_slice dec_Link Link_zero) [] App_LinkRaw0) as [ms|] eqn:E2; [|discriminate].
    intros H. injection H as <-. exists ms. simpl. rewrite E1, E2. split; [reflexivity|].
    unfold ToAppResponse. simpl. destruct ms as [|m ms']; [reflexivity|].
    rewrite scan_links_canonical. reflexivity.
Qed.

Lemma C6_canonical_url_first_match_witness :
  exists ls, resolve_links (App_LinkRaw (match App_UnmarshalJSON (app_json (label_obj "Test App 1") test_link) App_zero with
                                         | Some a => a | None => App_zero end)) = Some ls /\
             AppResponse_URL <$> fst (ToAppResponse (match App_UnmarshalJSON (app_json (label_obj "Test App 1") test_link) App_zero with
                                                       | Some a => a | None => App_zero end)) = Some (canonical_url ls).
Proof.
  apply (C6_canonical_url_first_match (app_json (label_obj "Test App 1") test_link)).
  vm_compute. reflexivity.
Defined.

(* ------------------------------------------------------------------ *)
(** ** Claims about the catalog cache                                     *)
(* ------------------------------------------------------------------ *)

Lemma loadAppsFromFile_world f w :
  loadAppsFromFile f w = (fst (loadAppsFromFile f w), w).
Proof.
  unfold loadAppsFromFile, bind, os_ReadFile. simpl.
  destruct (fs w !! f) as [[j|t]|]; simpl; [|reflexivity|reflexivity].
  destruct (dec_slice App_UnmarshalJSON App_zero j []); reflexivity.
Qed.

(** C9: a cache file that loads but holds no entry counts as a miss: the
    upstream catalog URL is fetched, as when loading fails; only a
    non-empty cached list is returned without any upstream request (and
    with the world unchanged). *)
Theorem C9_empty_cache_is_miss s w :
  let file := AppsStorageFile (AppService_Config s) in
  let url := AppsApiUrl (AppService_Config s) in
  (forall apps, fst (loadAppsFromFile file w) = Ok apps -> apps <> [] ->
     AppService_GetApps s w = (Ok (map (fun app => fst (ToAppResponse app)) apps), w)) /\
  ((fst (loadAppsFromFile file w) = Ok [] \/ is_error (fst (loadAppsFromFile file w)) = true) ->
     requests (snd (AppService_GetApps s w)) = url :: requests w).
Proof.
  intros file url. unfold AppService_GetApps, bind. cbv zeta. fold file url.
  pose proof (loadAppsFromFile_world file w) as Hw.
  destruct (loadAppsFromFile file w) as [r w0]. simpl in Hw |- *.
  injection Hw as ->. split.
  - intros apps -> Hne. destruct apps as [|a rest]; [congruence|reflexivity].
  - intros Hmiss.
    assert (Hcase : match r with Ok (_ :: _) => False | _ => True end).
    { destruct Hmiss as [-> | He]; [exact I|]. destruct r; [discriminate|exact I]. }
    destruct r as [[|a rest]|e]; [| destruct Hcase |];
    unfold Client_Get; simpl;
    destruct (upstream w url) as [msg|status [[j|t]|]]; simpl; try reflexivity;
    destruct (negb (status =? 200)); simpl; try reflexivity;
    destruct (dec_Root j Root_zero); simpl; try reflexivity;
    unfold saveAppsToFile, saveDataToFile; simpl; destruct (writable _ _); reflexivity.
Qed.

Lemma C9_empty_cache_is_miss_witness :
  fst (loadAppsFromFile (AppsStorageFile (AppService_Config test_service)) empty_cache_world) = Ok [] /\
  requests (snd (AppService_GetApps test_service empty_cache_world)) =
    AppsApiUrl (AppService_Config test_service) :: requests empty_cache_world /\
  fst (loadAppsFromFile (AppsStorageFile (AppService_Config test_service)) cached_world) = Ok [test_app] /\
  AppService_GetApps test_service cached_world =
    (Ok (map (fun app => fst (ToAppResponse app)) [test_app]), cached_world).
Proof.
  assert (H0 : fst (loadAppsFromFile (AppsStorageFile (AppService_Config test_service)) empty_cache_world) = Ok [])
    by (vm_compute; reflexivity).
  assert (H1 : fst (loadAppsFromFile (AppsStorageFile (AppService_Config test_service)) cached_world) = Ok [test_app])
    by (vm_compute; reflexivity).
  split; [exact H0|].
  split; [exact (proj2 (C9_empty_cache_is_miss test_service empty_cache_world) (or_introl H0))|].
  split; [exact H1|].
  exact (proj1 (C9_empty_cache_is_miss test_service cached_world) [test_app] H1 ltac:(discriminate)).
Defined.

(* ------------------------------------------------------------------ *)
(** ** Claims about the reviews handler                                   *)
(* ------------------------------------------------------------------ *)

(** C7 (counterexample): the query [?id=] carries an [id] parameter, so
    the spec's rule does not ask for 400, yet the handler answers 400
    (here with the test service and world). *)
Theorem C7_empty_id_is_rejected :
  spec_bad_request [("id", "")] = false /\
  StatusCode (fst (AppReviewsHandler test_handlers [("id", "")] (test_world test_now valid_reviews_json)))
    = StatusBadRequest.
Proof. split; reflexivity. Qed.

(** C7 (amended): the handler answers 400 exactly when
    [handler_bad_request] holds (an empty first [id], or a non-empty
    [hours] that [Atoi] rejects or that is negative); when [id] is
    non-empty and [hours] is empty or absent, it calls [GetReviews] with
    0 hours and answers 500 or 200 by its result. *)
Theorem C7_handler_bad_request {S} `{AppServiceInterface S} (h : Handlers S) (q : Values) (w : World) :
  (StatusCode (fst (AppReviewsHandler h q w)) = StatusBadRequest <-> handler_bad_request q = true) /\
  (Values_Get q "id" <> "" -> Values_Get q "hours" = "" ->
     snd (AppReviewsHandler h q w) = snd (GetReviews (Handlers_AppService h) (Values_Get q "id") 0 w) /\
     StatusCode (fst (AppReviewsHandler h q w)) =
       (if is_error (fst (GetReviews (Handlers_AppService h) (Values_Get q "id") 0 w))
        then StatusInternalServerError else StatusOK)).
Proof.
  unfold AppReviewsHandler, handler_bad_request, bind. split.
  - destruct (String.eqb (Values_Get q "id") "") eqn:Eid; simpl; [tauto|].
    destruct (String.eqb (Values_Get q "hours") "") eqn:Eh; simpl.
    + destruct (GetReviews (Handlers_AppService h) (Values_Get q "id") 0 w) as [[rs|e] w']; simpl;
        split; intro X; discriminate X.
    + destruct (Atoi (Values_Get q "hours")) as [n|e]; simpl; [|tauto].
      destruct (n <? 0); simpl; [tauto|].
      destruct (GetReviews (Handlers_AppService h) (Values_Get q "id") n w) as [[rs|e] w']; simpl;
        split; intro X; discriminate X.
  - intros Hid Hh. apply String.eqb_neq in Hid. rewrite Hid, Hh. simpl.
    destruct (GetReviews (Handlers_AppService h) (Values_Get q "id") 0 w) as [[rs|e] w']; simpl;
      split; reflexivity.
Qed.

Lemma C7_handler_bad_request_witness :
  Values_Get [("id", "595068606")] "id" <> "" /\ Values_Get [("id", "595068606")] "hours" = "" /\
  snd (AppReviewsHandler test_handlers [("id", "595068606")] (test_world test_now valid_reviews_json)) =
    snd (GetReviews test_service "595068606" 0 (test_world test_now valid_reviews_json)) /\
  StatusCode (fst (AppReviewsHandler test_handlers [("id", "595068606")] (test_world test_now valid_reviews_json))) =
    (if is_error (fst (GetReviews test_service "595068606" 0 (test_world test_now valid_reviews_json)))
     then StatusInternalServerError else StatusOK).
Proof.
  split; [discriminate|]. split; [reflexivity|].
  exact (proj2 (C7_handler_bad_request test_handlers [("id", "595068606")] (test_world test_now valid_reviews_json))
           ltac:(discriminate) eq_refl).
Defined.

(* ------------------------------------------------------------------ *)
(** ** Encoding then decoding the catalog cache                           *)
(* ------------------------------------------------------------------ *)

Lemma san_cons_ascii b t : (nat_of_ascii b <? 128)%nat = true ->
  utf8_sanitize (String b t) = String b (utf8_sanitize t).
Proof. intros H. cbn [utf8_sanitize]. rewrite H. reflexivity. Qed.

Lemma san_replacement t : utf8_sanitize (replacement_char +:+ t) = replacement_char +:+ utf8_sanitize t.
Proof. reflexivity. Qed.

Lemma san_step s : s <> EmptyString ->
  exists p r, (String.length r < String.length s)%nat /\
    utf8_sanitize s = p +:+ utf8_sanitize r /\
    forall t, utf8_sanitize (p +:+ t) = p +:+ utf8_sanitize t.
Proof.
  destruct s as [|b0 s1]; [congruence|intros _].
  destruct (nat_of_ascii b0 <? 128)%nat eqn:E0.
  { exists (String b0 EmptyString), s1. split; [simpl; lia|].
    split; [apply san_cons_ascii, E0|]. intros t. apply san_cons_ascii, E0. }
  destruct s1 as [|b1 s2].
  { exists replacement_char, EmptyString. split; [simpl; lia|]. cbn [utf8_sanitize].
    split; [cbn [utf8_sanitize]; rewrite E0; reflexivity|]. apply san_replacement. }
  destruct (utf8_2 b0 b1) eqn:E2.
  { exists (String b0 (String b1 EmptyString)), s2. split; [simpl; lia|].
    split; [cbn [utf8_sanitize]; rewrite E0, E2; reflexivity|].
    intros t. change (utf8_sanitize (String b0 (String b1 t)) = String b0 (String b1 (utf8_sanitize t))).
    cbn [utf8_sanitize]. rewrite E0, E2. reflexivity. }
  destruct s2 as [|b2 s3].
  { exists replacement_char, (String b1 EmptyString). split; [simpl; lia|].
    split; [cbn [utf8_sanitize]; rewrite E0, E2; reflexivity|]. apply san_replacement. }
  destruct (utf8_3 b0 b1 b2) eqn:E3.
  { exists (String b0 (String b1 (String b2 EmptyString))), s3. split; [simpl; lia|].
    split; [cbn [utf8_sanitize]; rewrite E0, E2, E3; reflexivity|].
    intros t. change (utf8_sanitize (String b0 (String b1 (String b2 t))) = String b0 (String b1 (String b2 (utf8_sanitize t)))).
    cbn [utf8_sanitize]. rewrite E0, E2, E3. reflexivity. }
  destruct s3 as [|b3 s4].
  { exists replacement_char, (String b1 (String b2 EmptyString)). split; [simpl; lia|].
    split; [cbn [utf8_sanitize]; rewrite E0, E2, E3; reflexivity|]. apply san_replacement. }
  destruct (utf8_4 b0 b1 b2 b3) eqn:E4.
  { exists (String b0 (String b1 (String b2 (String b3 EmptyString)))), s4. split; [simpl; lia|].
    split; [cbn [utf8_sanitize]; rewrite E0, E2, E3, E4; reflexivity|].
    intros t. change (utf8_sanitize (String b0 (String b1 (String b2 (String b3 t)))) = String b0 (String b1 (String b2 (String b3 (utf8_sanitize t))))).
    cbn [utf8_sanitize]. rewrite E0, E2, E3, E4. reflexivity. }
  exists replacement_char, (String b1 (String b2 (String b3 s4))). split; [simpl; lia|].
  split; [cbn [utf8_sanitize]; rewrite E0, E2, E3, E4; reflexivity|]. apply san_replacement.
Qed.

Lemma utf8_sanitize_idem s : utf8_sanitize (utf8_sanitize s) = utf8_sanitize s.
Proof.
  remember (String.length s) as n eqn:Hn. revert s Hn.
  induction n as [n IH] using lt_wf_ind. intros s Hn.
  destruct s as [|b s']; [reflexivity|].
  destruct (san_step (String b s')) as [p [r [Hlt [Hs Hp]]]]; [discriminate|].
  rewrite Hs, Hp. f_equal. apply (IH (String.length r)); [lia|reflexivity].
Qed.

Lemma utf8_sanitize_valid s : valid_str (utf8_sanitize s).
Proof. apply utf8_sanitize_idem. Qed.

(** Decoding keeps validity. *)
Lemma dec_string_valid : preserves valid_str dec_string.
Proof.
  intros j cur v Hc. destruct j; simpl; try discriminate.
  - intros H. injection H as <-. exact Hc.
  - intros H. injection H as <-. apply utf8_sanitize_valid.
Qed.

Lemma dec_fields_preserves {T} (P : T -> Prop) (fs : list (string * decoder T)) :
  Forall (fun nd => preserves P (snd nd)) fs ->
  forall kvs cur v, P cur -> dec_fields fs kvs cur = Some v -> P v.
Proof.
  intros Hfs kvs. induction kvs as [|[k x] kvs IH]; intros cur v Hc; cbn [dec_fields].
  - intros H. injection H as <-. exact Hc.
  - destruct (lookup_field k fs) as [d|] eqn:El; [|apply IH; exact Hc].
    destruct (d x cur) as [c1|] eqn:Ed; cbn [opt_bind]; [|discriminate].
    apply IH. destruct (lookup_field_In _ _ _ El) as [n [Hin _]].
    rewrite List.Forall_forall in Hfs. exact (Hfs (n, d) Hin x cur c1 Hc Ed).
Qed.

Lemma dec_struct_preserves {T} (P : T -> Prop) (fs : list (string * decoder T)) :
  Forall (fun nd => preserves P (snd nd)) fs -> preserves P (dec_struct fs).
Proof.
  intros Hfs j cur v Hc. destruct j; simpl; try discriminate.
  - intros H. injection H as <-. exact Hc.
  - apply (dec_fields_preserves P fs Hfs kvs cur v Hc).
Qed.

Lemma fld_preserves {T F} (P : T -> Prop) (Q : F -> Prop) (get : T -> F) (set : T -> F -> T) (d : decoder F) :
  preserves Q d -> (forall v, P v -> Q (get v)) -> (forall v x, P v -> Q x -> P (set v x)) ->
  preserves P (fld get set d).
Proof.
  intros Hd Hg Hs j cur v Hc. unfold fld.
  destruct (d j (get cur)) as [x|] eqn:E; cbn [opt_bind]; [|discriminate].
  intros H. injection H as <-. apply Hs; [exact Hc|]. exact (Hd j (get cur) x (Hg cur Hc) E).
Qed.

Lemma dec_elems_preserves {T} (P : T -> Prop) (d : decoder T) zero :
  preserves P d -> P zero ->
  forall xs cur vs, Forall P cur -> dec_elems d zero xs cur = Some vs -> Forall P vs.
Proof.
  intros Hd Hz xs. induction xs as [|x xs IH]; intros cur vs Hc; cbn [dec_elems].
  - intros H. injection H as <-. constructor.
  - destruct cur as [|c r].
    + destruct (d x zero) as [v|] eqn:E; cbn [opt_bind]; [|discriminate].
      destruct (dec_elems d zero xs []) as [vs'|] eqn:E'; cbn [opt_bind]; [|discriminate].
      intros H. injection H as <-. constructor; [exact (Hd _ _ _ Hz E)|]. exact (IH [] vs' (List.Forall_nil _) E').
    + inversion Hc as [|? ? Hc1 Hc2]; subst.
      destruct (d x c) as [v|] eqn:E; cbn [opt_bind]; [|discriminate].
      destruct (dec_elems d zero xs r) as [vs'|] eqn:E'; cbn [opt_bind]; [|discriminate].
      intros H. injection H as <-. constructor; [exact (Hd _ _ _ Hc1 E)|]. exact (IH r vs' Hc2 E').
Qed.

Lemma dec_goslice_preserves {T} (P : T -> Prop) (d : decoder T) zero :
  preserves P d -> P zero -> preserves (fun xs => Forall P (slice_elems xs)) (dec_goslice d zero).
Proof.
  intros Hd Hz j cur v Hc. destruct j; simpl; try discriminate.
  - intros H. injection H as <-. constructor.
  - destruct (dec_elems d zero xs (slice_elems cur)) as [vs|] eqn:E; simpl; [|discriminate].
    intros H. injection H as <-. exact (dec_elems_preserves P d zero Hd Hz xs _ vs Hc E).
Qed.

Lemma dec_slice_preserves {T} (P : T -> Prop) (d : decoder T) zero :
  preserves P d -> P zero -> preserves (Forall P) (dec_slice d zero).
Proof.
  intros Hd Hz j cur v Hc. destruct j; simpl; try discriminate.
  - intros H. injection H as <-. constructor.
  - exact (dec_elems_preserves P d zero Hd Hz xs cur v Hc).
Qed.

Lemma dec_RawMessage_true : preserves (fun _ => True) dec_RawMessage.
Proof. intros ? ? ? ? ?. exact I. Qed.

Create HintDb valid_dec.
#[local] Hint Resolve dec_string_valid dec_RawMessage_true : valid_dec.

(** A struct decoder built from [fld]s keeps the validity of the struct
    when each field decoder keeps that of its field. *)
Ltac forall_list tac :=
  match goal with
  | |- Forall _ (_ :: _) => apply List.Forall_cons; [tac | forall_list tac]
  | |- Forall _ [] => apply List.Forall_nil
  end.

Ltac preserve_struct :=
  apply dec_struct_preserves;
  forall_list ltac:(cbn [snd];
    eapply fld_preserves;
      [ eauto with valid_dec
      | let v := fresh "v" in intros v; destruct v; cbn; tauto
      | let v := fresh "v" in intros v ? ?; destruct v; cbn in *; tauto ]).

Lemma dec_LabelField_valid : preserves valid_LabelField dec_LabelField.
Proof. unfold valid_LabelField. preserve_struct. Qed.
#[local] Hint Resolve dec_LabelField_valid : valid_dec.
Lemma dec_Image_Attributes_valid : preserves valid_ImageAttributes dec_Image_Attributes.
Proof. unfold valid_ImageAttributes. preserve_struct. Qed.
#[local] Hint Resolve dec_Image_Attributes_valid : valid_dec.
Lemma dec_Image_valid : preserves valid_Image dec_Image.
Proof. unfold valid_Image. preserve_struct. Qed.
#[local] Hint Resolve dec_Image_valid : valid_dec.
Lemma dec_Price_Attributes_valid : preserves valid_PriceAttributes dec_Price_Attributes.
Proof. unfold valid_PriceAttributes. preserve_struct. Qed.
#[local] Hint Resolve dec_Price_Attributes_valid : valid_dec.
Lemma dec_Price_valid : preserves valid_Price dec_Price.
Proof. unfold valid_Price. preserve_struct. Qed.
#[local] Hint Resolve dec_Price_valid : valid_dec.
Lemma dec_ContentType_Attributes_valid : preserves valid_ContentTypeAttributes dec_ContentType_Attributes.
Proof. unfold valid_ContentTypeAttributes. preserve_struct. Qed.
#[local] Hint Resolve dec_ContentType_Attributes_valid : valid_dec.
Lemma dec_ContentType_valid : preserves valid_ContentType dec_ContentType.
Proof. unfold valid_ContentType. preserve_struct. Qed.
#[local] Hint Resolve dec_ContentType_valid : valid_dec.
Lemma dec_AppID_Attributes_valid : preserves valid_AppIDAttributes dec_AppID_Attributes.
Proof. unfold valid_AppIDAttributes. preserve_struct. Qed.
#[local] Hint Resolve dec_AppID_Attributes_valid : valid_dec.
Lemma dec_AppID_valid : preserves valid_AppID dec_AppID.
Proof. unfold valid_AppID. preserve_struct. Qed.
#[local] Hint Resolve dec_AppID_valid : valid_dec.
Lemma dec_Artist_Attributes_valid : preserves valid_ArtistAttributes dec_Artist_Attributes.
Proof. unfold valid_ArtistAttributes. preserve_struct. Qed.
#[local] Hint Resolve dec_Artist_Attributes_valid : valid_dec.
Lemma dec_Artist_valid : preserves valid_Artist dec_Artist.
Proof. unfold valid_Artist. preserve_struct. Qed.
#[local] Hint Resolve dec_Artist_valid : valid_dec.
Lemma dec_Category_Attributes_valid : preserves valid_CategoryAttributes dec_Category_Attributes.
Proof. unfold valid_CategoryAttributes. preserve_struct. Qed.
#[local] Hint Resolve dec_Category_Attributes_valid : valid_dec.
Lemma dec_Category_valid : preserves valid_Category dec_Category.
Proof. unfold valid_Category. preserve_struct. Qed.
#[local] Hint Resolve dec_Category_valid : valid_dec.
Lemma dec_ReleaseDate_Attributes_valid : preserves valid_ReleaseDateAttributes dec_ReleaseDate_Attributes.
Proof. unfold valid_ReleaseDateAttributes. preserve_struct. Qed.
#[local] Hint Resolve dec_ReleaseDate_Attributes_valid : valid_dec.
Lemma dec_ReleaseDate_valid : preserves valid_ReleaseDate dec_ReleaseDate.
Proof. unfold valid_ReleaseDate. preserve_struct. Qed.
#[local] Hint Resolve dec_ReleaseDate_valid : valid_dec.

Lemma Image_zero_valid : valid_Image Image_zero.
Proof. split; reflexivity. Qed.
#[local] Hint Resolve Image_zero_valid : valid_dec.

Lemma dec_goslice_Image_valid :
  preserves (fun xs => Forall valid_Image (slice_elems xs)) (dec_goslice dec_Image Image_zero).
Proof. apply dec_goslice_preserves; auto with valid_dec. Qed.
#[local] Hint Resolve dec_goslice_Image_valid : valid_dec.

Lemma dec_alias_valid : preserves valid_App (dec_struct App_alias_fields).
Proof. unfold valid_App, App_alias_fields. preserve_struct. Qed.

Lemma App_zero_valid : valid_App App_zero.
Proof. repeat split; try constructor. Qed.

Lemma App_UnmarshalJSON_valid : preserves valid_App App_UnmarshalJSON.
Proof.
  intros j cur v Hc. unfold App_UnmarshalJSON.
  destruct (dec_struct App_alias_fields j cur) as [e1|] eqn:E; cbn [opt_bind]; [|discriminate].
  pose proof (dec_alias_valid j cur e1 Hc E) as H1.
  destruct (unmarshal_raw dec_Link Link_zero (App_LinkRaw e1)).
  - intros H. injection H as <-. destruct e1; exact H1.
  - destruct (unmarshal_raw (dec_slice dec_Link Link_zero) [] (App_LinkRaw e1)); [|discriminate].
    intros H. injection H as <-. destruct e1; exact H1.
Qed.

Lemma dec_ReviewAuthor_valid : preserves valid_ReviewAuthor dec_ReviewAuthor.
Proof. unfold valid_ReviewAuthor. preserve_struct. Qed.
#[local] Hint Resolve dec_ReviewAuthor_valid : valid_dec.
Lemma dec_Review_valid : preserves valid_Review dec_Review.
Proof. unfold valid_Review. preserve_struct. Qed.

Lemma Review_zero_valid : valid_Review Review_zero.
Proof. repeat split. Qed.

(** Encoding then decoding a valid value gives it back. *)
Ltac marshal_valid :=
  let Hv := fresh "Hv" in
  intros Hv; cbv -[utf8_sanitize] in Hv |- *;
  repeat match goal with H : _ /\ _ |- _ => destruct H end;
  repeat match goal with H : utf8_sanitize ?x = ?x |- _ => rewrite !H; clear H end;
  reflexivity.

Lemma dec_LabelField_marshal v cur : valid_LabelField v -> dec_LabelField (marshal_LabelField v) cur = Some v.
Proof. destruct v; marshal_valid. Qed.
Lemma dec_Image_marshal v cur : valid_Image v -> dec_Image (marshal_Image v) cur = Some v.
Proof. destruct v as [? []]; marshal_valid. Qed.
Lemma dec_Price_marshal v cur : valid_Price v -> dec_Price (marshal_Price v) cur = Some v.
Proof. destruct v as [? []]; marshal_valid. Qed.
Lemma dec_ContentType_marshal v cur : valid_ContentType v -> dec_ContentType (marshal_ContentType v) cur = Some v.
Proof. destruct v as [[]]; marshal_valid. Qed.
Lemma dec_AppID_marshal v cur : valid_AppID v -> dec_AppID (marshal_AppID v) cur = Some v.
Proof. destruct v as [? []]; marshal_valid. Qed.
Lemma dec_Artist_marshal v cur : valid_Artist v -> dec_Artist (marshal_Artist v) cur = Some v.
Proof. destruct v as [? []]; marshal_valid. Qed.
Lemma dec_Category_marshal v cur : valid_Category v -> dec_Category (marshal_Category v) cur = Some v.
Proof. destruct v as [[]]; marshal_valid. Qed.
Lemma dec_ReleaseDate_marshal v cur : valid_ReleaseDate v -> dec_ReleaseDate (marshal_ReleaseDate v) cur = Some v.
Proof. destruct v as [? []]; marshal_valid. Qed.

Lemma dec_elems_marshal {T} (d : decoder T) (m : T -> json) (P : T -> Prop) zero
    (Hdm : forall v cur, P v -> d (m v) cur = Some v) xs cur :
  Forall P xs -> dec_elems d zero (map m xs) cur = Some xs.
Proof.
  intros Hxs. revert cur. induction Hxs as [|x xs Hx _ IH]; intros cur; [reflexivity|].
  cbn [map dec_elems]. destruct cur as [|c r]; rewrite (Hdm x _ Hx); cbn [opt_bind]; rewrite IH; reflexivity.
Qed.

Lemma dec_goslice_marshal {T} (d : decoder T) (m : T -> json) (P : T -> Prop) zero
    (Hdm : forall v cur, P v -> d (m v) cur = Some v) xs cur :
  Forall P (slice_elems xs) -> dec_goslice d zero (marshal_slice m xs) cur = Some xs.
Proof.
  destruct xs as [l|]; simpl; [|reflexivity].
  intros Hl. rewrite (dec_elems_marshal d m P zero Hdm l _ Hl). reflexivity.
Qed.

Lemma dec_slice_marshal {T} (d : decoder T) (m : T -> json) (P : T -> Prop) zero
    (Hdm : forall v cur, P v -> d (m v) cur = Some v) xs cur :
  Forall P (slice_elems xs) -> dec_slice d zero (marshal_slice m xs) cur = Some (slice_elems xs).
Proof.
  destruct xs as [l|]; simpl; [|reflexivity].
  intros Hl. exact (dec_elems_marshal d m P zero Hdm l cur Hl).
Qed.

Ltac cbv_fields :=
  cbv -[dec_LabelField marshal_LabelField dec_Price marshal_Price dec_ContentType marshal_ContentType
        dec_AppID marshal_AppID dec_Artist marshal_Artist dec_Category marshal_Category
        dec_ReleaseDate marshal_ReleaseDate dec_goslice marshal_slice dec_Image marshal_Image].

(** The alias fields of a valid encoded [App], decoded into a zero
    [App]: every encoded field comes back, the ["-"] fields stay zero. *)
Lemma App_alias_marshal a :
  valid_App a ->
  dec_struct App_alias_fields (marshal_App a) App_zero =
  Some (mkApp (App_IMName a) (App_IMImages a) (App_Summary a) (App_IMPrice a)
          (App_IMContentType a) (App_Rights a) (App_Title a)
          (Some (marshal_RawMessage (App_LinkRaw a))) Link_zero [] (App_ID a)
          (App_IMArtist a) (App_Category a) (App_IMReleaseDate a)).
Proof.
  destruct a as [n imgs su pr ct ri ti raw ls lm id ar ca rd].
  intros (Hn & Himg & Hsu & Hpr & Hct & Hri & Hti & Hid & Har & Hca & Hrd).
  cbn [App_IMName App_IMImages App_Summary App_IMPrice App_IMContentType App_Rights App_Title
       App_ID App_IMArtist App_Category App_IMReleaseDate App_LinkRaw] in *.
  unfold dec_struct, marshal_App.
  cbv_fields.
  rewrite (dec_LabelField_marshal _ _ Hn). cbv_fields.
  rewrite (dec_goslice_marshal dec_Image marshal_Image valid_Image Image_zero dec_Image_marshal imgs _ Himg).
  cbv_fields.
  rewrite (dec_LabelField_marshal _ _ Hsu). cbv_fields.
  rewrite (dec_Price_marshal _ _ Hpr). cbv_fields.
  rewrite (dec_ContentType_marshal _ _ Hct). cbv_fields.
  rewrite (dec_LabelField_marshal _ _ Hri). cbv_fields.
  rewrite (dec_LabelField_marshal _ _ Hti). cbv_fields.
  rewrite (dec_AppID_marshal _ _ Hid). cbv_fields.
  rewrite (dec_Artist_marshal _ _ Har). cbv_fields.
  rewrite (dec_Category_marshal _ _ Hca). cbv_fields.
  rewrite (dec_ReleaseDate_marshal _ _ Hrd). cbv_fields.
  reflexivity.
Qed.

(** An [App] decoded from an entry, encoded and decoded again into a
    zero [App], comes back unchanged. *)
Lemma App_UnmarshalJSON_marshal j a :
  App_UnmarshalJSON j App_zero = Some a -> App_UnmarshalJSON (marshal_App a) App_zero = Some a.
Proof.
  intros H.
  pose proof (App_UnmarshalJSON_valid j App_zero a App_zero_valid H) as Hv.
  unfold App_UnmarshalJSON in H |- *.
  destruct (dec_struct App_alias_fields j App_zero) as [e1|] eqn:E1; [|discriminate].
  cbn [opt_bind] in H.
  pose proof (alias_struct_links _ _ _ E1) as [Hs Hm].
  rewrite (App_alias_marshal a Hv). cbn [opt_bind].
  destruct e1 as [f1 f2 f3 f4 f5 f6 f7 f8 f9 f10 f11 f12 f13 f14].
  simpl in Hs, Hm, H |- *. subst f9 f10.
  destruct f8 as [r|]; simpl in H |- *; [|discriminate].
  destruct (dec_Link r Link_zero) as [single|] eqn:E2.
  - injection H as <-. simpl. rewrite E2. reflexivity.
  - destruct (dec_slice dec_Link Link_zero r []) as [multi|] eqn:E3; [|discriminate].
    injection H as <-. simpl. rewrite E2, E3. reflexivity.
Qed.

Lemma dec_elems_App_marshal js apps :
  Forall2 (fun j a => App_UnmarshalJSON j App_zero = Some a) js apps ->
  dec_elems App_UnmarshalJSON App_zero (map marshal_App apps) [] = Some apps.
Proof.
  induction 1 as [|j a js apps Ha _ IH]; [reflexivity|].
  cbn [map dec_elems]. rewrite (App_UnmarshalJSON_marshal j a Ha). cbn [opt_bind].
  rewrite IH. reflexivity.
Qed.

(** C8: saving catalog entries decoded from the upstream feed (each a
    fresh [App.UnmarshalJSON] of its entry) to a writable path, then
    loading from the same path, gives back the same list: as many entries,
    each equal to the saved one.  The saved slice may be nil (encoded
    [null]), which loads as the empty list. *)
Theorem C8_cache_round_trip (js : list json) (apps : slice App) (file : string) (w : World) :
  Forall2 (fun j a => App_UnmarshalJSON j App_zero = Some a) js (slice_elems apps) ->
  writable w file = true ->
  fst (saveAppsToFile apps file w) = Ok tt /\
  fst (loadAppsFromFile file (snd (saveAppsToFile apps file w))) = Ok (slice_elems apps).
Proof.
  intros Hd Hw. unfold saveAppsToFile, saveDataToFile. rewrite Hw. split; [reflexivity|].
  unfold loadAppsFromFile, bind, os_ReadFile, set_fs. cbn [fst snd fs].
  rewrite lookup_insert_eq. destruct apps as [l|]; [|reflexivity].
  unfold marshal_slice, dec_slice.
  rewrite (dec_elems_App_marshal js l Hd). reflexivity.
Qed.

Lemma C8_cache_round_trip_witness :
  Forall2 (fun j a => App_UnmarshalJSON j App_zero = Some a) [test_entry] (slice_elems (Some [test_app])) /\
  writable (test_world test_now valid_reviews_json) "/tmp/testdata/apps.json" = true /\
  (fst (saveAppsToFile (Some [test_app]) "/tmp/testdata/apps.json" (test_world test_now valid_reviews_json)) = Ok tt /\
   fst (loadAppsFromFile "/tmp/testdata/apps.json"
          (snd (saveAppsToFile (Some [test_app]) "/tmp/testdata/apps.json" (test_world test_now valid_reviews_json))))
     = Ok (slice_elems (Some [test_app]))).
Proof.
  assert (Hd : Forall2 (fun j a => App_UnmarshalJSON j App_zero = Some a) [test_entry] (slice_elems (Some [test_app]))).
  { constructor; [vm_compute; reflexivity | constructor]. }
  split; [exact Hd|]. split; [reflexivity|].
  exact (C8_cache_round_trip [test_entry] (Some [test_app]) "/tmp/testdata/apps.json"
           (test_world test_now valid_reviews_json) Hd eq_refl).
Defined.

(* ------------------------------------------------------------------ *)
(** ** The reviews cache and the effects of the service calls             *)
(* ------------------------------------------------------------------ *)

Lemma dec_Review_marshal r cur : valid_Review r -> dec_Review (marshal_Review r) cur = Some r.
Proof. destruct r as [[] [[]] [] [] []]; marshal_valid. Qed.

#[local] Hint Resolve dec_Review_valid Review_zero_valid : valid_dec.

Lemma dec_goslice_Review_valid :
  preserves (fun xs => Forall valid_Review (slice_elems xs)) (dec_goslice dec_Review Review_zero).
Proof. apply dec_goslice_preserves; auto with valid_dec. Qed.
#[local] Hint Resolve dec_goslice_Review_valid : valid_dec.

Lemma dec_ReviewsFeed_valid :
  preserves (fun f => Forall valid_Review (slice_elems (ReviewsFeed_Entries f))) dec_ReviewsFeed.
Proof. preserve_struct. Qed.
#[local] Hint Resolve dec_ReviewsFeed_valid : valid_dec.

Lemma dec_ReviewFeed_valid :
  preserves (fun f => Forall valid_Review (slice_elems (ReviewsFeed_Entries (ReviewFeed_Feed f)))) dec_ReviewFeed.
Proof. preserve_struct. Qed.

(** X1: the reviews of a decoded feed have valid UTF-8 strings, and saving
    any slice of such reviews to a writable path and loading it back
    gives the same reviews (a nil slice loads as the empty list). *)
Theorem X1_reviews_cache_round_trip :
  (forall j feed, dec_ReviewFeed j ReviewFeed_zero = Some feed ->
     Forall valid_Review (slice_elems (ReviewsFeed_Entries (ReviewFeed_Feed feed)))) /\
  (forall (reviews : slice Review) (file : string) (w : World),
     Forall valid_Review (slice_elems reviews) ->
     writable w file = true ->
     fst (saveReviewsToFile reviews file w) = Ok tt /\
     fst (loadReviewsFromFile file (snd (saveReviewsToFile reviews file w))) = Ok (slice_elems reviews)).
Proof.
  split.
  - intros j feed H. exact (dec_ReviewFeed_valid j ReviewFeed_zero feed (List.Forall_nil _) H).
  - intros reviews file w Hv Hw. unfold saveReviewsToFile, saveDataToFile. rewrite Hw. split; [reflexivity|].
    unfold loadReviewsFromFile, bind, os_ReadFile, set_fs. cbn [fst snd fs].
    rewrite lookup_insert_eq.
    rewrite (dec_slice_marshal dec_Review marshal_Review valid_Review Review_zero dec_Review_marshal reviews [] Hv).
    reflexivity.
Qed.

Lemma X1_reviews_cache_round_trip_witness :
  Forall valid_Review (slice_elems (Some [bad_rating_review])) /\
  writable (test_world test_now valid_reviews_json) "/tmp/testdata/reviews" = true /\
  (fst (saveReviewsToFile (Some [bad_rating_review]) "/tmp/testdata/reviews" (test_world test_now valid_reviews_json)) = Ok tt /\
   fst (loadReviewsFromFile "/tmp/testdata/reviews"
          (snd (saveReviewsToFile (Some [bad_rating_review]) "/tmp/testdata/reviews" (test_world test_now valid_reviews_json))))
     = Ok (slice_elems (Some [bad_rating_review]))).
Proof.
  assert (Hv : Forall valid_Review (slice_elems (Some [bad_rating_review]))).
  { constructor; [vm_compute; repeat split | constructor]. }
  split; [exact Hv|]. split; [reflexivity|].
  exact (proj2 X1_reviews_cache_round_trip (Some [bad_rating_review]) "/tmp/testdata/reviews"
           (test_world test_now valid_reviews_json) Hv eq_refl).
Defined.

(** X2: [/app/reviews] with an [id] and no [hours] answers [200] with the
    body [null] when [GetReviews] finds no review ([convertReviews] then
    returns a nil slice), and with the array of the responses otherwise. *)
Theorem X2_no_reviews_body_is_null (h : Handlers AppService) (q : Values) (w : World)
    (rs : list ReviewResponse) :
  Values_Get q "id" <> "" -> Values_Get q "hours" = "" ->
  fst (GetReviews (Handlers_AppService h) (Values_Get q "id") 0 w) = Ok rs ->
  fst (AppReviewsHandler h q w) =
    mkHttpResponse StatusOK (PJson (match rs with [] => JNull | _ :: _ => JArray (map marshal_ReviewResponse rs) end)).
Proof.
  intros Hid Hh Hr. apply String.eqb_neq in Hid.
  unfold AppReviewsHandler, bind. rewrite Hid, Hh. cbn -[GetReviews].
  destruct (GetReviews (Handlers_AppService h) (Values_Get q "id") 0 w) as [r w']. cbn [fst] in Hr |- *.
  subst r. destruct rs; reflexivity.
Qed.
Lemma X2_no_reviews_body_is_null_witness :
  Values_Get [("id", "123")] "id" <> "" /\ Values_Get [("id", "123")] "hours" = "" /\
  fst (GetReviews test_service "123" 0 (test_world test_now (feed_json []))) = Ok [] /\
  fst (AppReviewsHandler test_handlers [("id", "123")] (test_world test_now (feed_json []))) =
    mkHttpResponse StatusOK (PJson JNull).
Proof.
  assert (Hr : fst (GetReviews test_service "123" 0 (test_world test_now (feed_json []))) = Ok [])
    by (vm_compute; reflexivity).
  split; [discriminate|]. split; [reflexivity|]. split; [exact Hr|].
  exact (X2_no_reviews_body_is_null test_handlers [("id", "123")] (test_world test_now (feed_json [])) []
           ltac:(discriminate) eq_refl Hr).
Defined.


Ltac unfold_reviews :=
  unfold AppService_GetReviews, AppService_GetAppReviewsFromApi, bind, Client_Get, time_Now, ret,
    saveReviewsToFile, saveDataToFile, set_fs; simpl.

(** X3: the reviews cache is write-only: [GetAppReviewsFromApi] and
    [GetReviews] never read a file, so their results depend on neither the
    files on disk nor whether the cache can be written, and every call
    makes exactly one request, to the reviews URL of the app. *)
Theorem X3_reviews_never_served_from_cache (s : AppService) (appID : string) (hours : Z) (w : World)
    (files : gmap string payload) (wr : string -> bool) :
  let w' := mkWorld files wr (clock w) (upstream w) (requests w) in
  fst (AppService_GetAppReviewsFromApi s appID w) = fst (AppService_GetAppReviewsFromApi s appID w') /\
  fst (AppService_GetReviews s appID hours w) = fst (AppService_GetReviews s appID hours w') /\
  requests (snd (AppService_GetAppReviewsFromApi s appID w)) = reviews_url s appID :: requests w /\
  requests (snd (AppService_GetReviews s appID hours w)) = reviews_url s appID :: requests w.
Proof.
  intros w'. subst w'. unfold reviews_url. unfold_reviews.
  destruct (upstream w _) as [e|st body]; simpl; [repeat split; reflexivity|].
  destruct (negb (st =? 200)); simpl; [repeat split; reflexivity|].
  destruct body as [[j|t]|]; simpl; try (repeat split; reflexivity).
  destruct (dec_ReviewFeed j ReviewFeed_zero); simpl; try (repeat split; reflexivity).
  destruct (writable w _), (wr _); simpl; destruct (hours =? 0); repeat split; reflexivity.
Qed.

Lemma GetAppReviewsFromApi_fs s appID w revs :
  fst (AppService_GetAppReviewsFromApi s appID w) = Ok revs ->
  let file := ReviewsStorageFile (AppService_Config s) in
  exists entries, slice_elems entries = revs /\ Forall valid_Review revs /\
  fs (snd (AppService_GetAppReviewsFromApi s appID w)) =
    if writable w file then <[file := PJson (marshal_slice marshal_Review entries)]> (fs w) else fs w.
Proof.
  unfold_reviews.
  destruct (upstream w _) as [e|st body]; simpl; [discriminate|].
  destruct (negb (st =? 200)); simpl; [discriminate|].
  destruct body as [[j|t]|]; simpl; try discriminate.
  destruct (dec_ReviewFeed j ReviewFeed_zero) as [feed|] eqn:Ef; simpl; try discriminate.
  pose proof (dec_ReviewFeed_valid j ReviewFeed_zero feed (List.Forall_nil _) Ef) as Hv.
  intros H. exists (ReviewsFeed_Entries (ReviewFeed_Feed feed)).
  destruct (writable w _); simpl in *; injection H as E; subst revs; repeat split; assumption || reflexivity.
Qed.

Lemma GetReviews_world s appID hours w :
  snd (AppService_GetReviews s appID hours w) = snd (AppService_GetAppReviewsFromApi s appID w).
Proof.
  unfold AppService_GetReviews, bind at 1.
  destruct (AppService_GetAppReviewsFromApi s appID w) as [[revs|e] w1]; simpl; [|reflexivity].
  destruct (hours =? 0); reflexivity.
Qed.

(** X4: whatever the window and whether the conversion of the ratings
    succeeds, [GetReviews] leaves in a writable reviews cache the whole
    fetched list, unfiltered: loading the cache afterwards gives every
    fetched review. *)
Theorem X4_GetReviews_caches_unfiltered (s : AppService) (appID : string) (hours : Z) (w : World)
    (revs : list Review) :
  fst (AppService_GetAppReviewsFromApi s appID w) = Ok revs ->
  writable w (ReviewsStorageFile (AppService_Config s)) = true ->
  fst (loadReviewsFromFile (ReviewsStorageFile (AppService_Config s)) (snd (AppService_GetReviews s appID hours w)))
    = Ok revs.
Proof.
  intros Hf Hw. rewrite GetReviews_world.
  unfold loadReviewsFromFile, bind, os_ReadFile.
  destruct (GetAppReviewsFromApi_fs s appID w revs Hf) as [entries [He [Hv Hfs]]].
  rewrite Hfs, Hw, lookup_insert_eq. cbn [fst].
  rewrite <- He in Hv |- *.
  rewrite (dec_slice_marshal dec_Review marshal_Review valid_Review Review_zero dec_Review_marshal entries [] Hv).
  reflexivity.
Qed.

Lemma X4_GetReviews_caches_unfiltered_witness :
  fst (AppService_GetAppReviewsFromApi test_service "123" bad_rating_world)
    = Ok (fetched_reviews test_service "123" bad_rating_world) /\
  writable bad_rating_world (ReviewsStorageFile (AppService_Config test_service)) = true /\
  fst (loadReviewsFromFile (ReviewsStorageFile (AppService_Config test_service))
         (snd (AppService_GetReviews test_service "123" 24 bad_rating_world)))
    = Ok (fetched_reviews test_service "123" bad_rating_world).
Proof.
  assert (Hf : fst (AppService_GetAppReviewsFromApi test_service "123" bad_rating_world)
                 = Ok (fetched_reviews test_service "123" bad_rating_world)) by (vm_compute; reflexivity).
  split; [exact Hf|]. split; [reflexivity|].
  exact (X4_GetReviews_caches_unfiltered test_service "123" 24 bad_rating_world _ Hf eq_refl).
Defined.

(* ------------------------------------------------------------------ *)
(** ** [GetApps]: cache hit, cache miss                                   *)
(* ------------------------------------------------------------------ *)

Lemma GetApps_hit s w app apps :
  fst (loadAppsFromFile (AppsStorageFile (AppService_Config s)) w) = Ok (app :: apps) ->
  AppService_GetApps s w = (Ok (map (fun a => fst (ToAppResponse a)) (app :: apps)), w).
Proof.
  intros Hl. unfold AppService_GetApps, bind. cbv zeta.
  pose proof (loadAppsFromFile_world (AppsStorageFile (AppService_Config s)) w) as Hw.
  destruct (loadAppsFromFile (AppsStorageFile (AppService_Config s)) w) as [r w0].
  simpl in Hw, Hl. injection Hw as ->. subst r. reflexivity.
Qed.

(** On a miss, [GetApps] behaves as its fetch branch run after the request. *)
Lemma GetApps_miss s w :
  let cfg := AppService_Config s in
  apps_cache_miss (fst (loadAppsFromFile (AppsStorageFile cfg) w)) ->
  AppService_GetApps s w =
    (match upstream w (AppsApiUrl cfg) with
     | TransportError e => ret (Error ("failed to make HTTP request: " +:+ e))
     | Response status body =>
         if negb (status =? 200) then ret (Error ("received non-200 status code: " +:+ itoa status)) else
         match body with
         | None => ret (Error "failed to read response body")
         | Some (PText _) => ret (Error "failed to unmarshal JSON")
         | Some (PJson j) =>
             match dec_Root j Root_zero with
             | None => ret (Error "failed to unmarshal JSON")
             | Some root =>
                 let! _ := saveAppsToFile (RootFeed_Entries (Root_Feed root)) (AppsStorageFile cfg) in
                 ret (Ok (convertRootToAppResponse root))
             end
         end
     end) (after_get (AppsApiUrl cfg) w).
Proof.
  intros cfg Hm. unfold AppService_GetApps, bind at 1. fold cfg.
  pose proof (loadAppsFromFile_world (AppsStorageFile cfg) w) as Hw.
  destruct (loadAppsFromFile (AppsStorageFile cfg) w) as [r w0].
  simpl in Hw, Hm. injection Hw as ->.
  destruct r as [[|a rest]|e]; [| destruct Hm |]; reflexivity.
Qed.

Lemma GetApps_miss_ok s w j root :
  let file := AppsStorageFile (AppService_Config s) in
  let url := AppsApiUrl (AppService_Config s) in
  apps_cache_miss (fst (loadAppsFromFile file w)) ->
  upstream w url = Response 200 (Some (PJson j)) ->
  dec_Root j Root_zero = Some root ->
  AppService_GetApps s w =
    (Ok (convertRootToAppResponse root),
     mkWorld (if writable w file
              then <[file := PJson (marshal_slice marshal_App (RootFeed_Entries (Root_Feed root)))]> (fs w)
              else fs w)
             (writable w) (clock w) (upstream w) (url :: requests w)).
Proof.
  intros file url Hm Hu Hd. rewrite (GetApps_miss s w Hm). fold url file. rewrite Hu. simpl.
  rewrite Hd. unfold bind, saveAppsToFile, saveDataToFile. simpl.
  destruct (writable w file); reflexivity.
Qed.

Lemma GetApps_miss_fail s w :
  let file := AppsStorageFile (AppService_Config s) in
  let url := AppsApiUrl (AppService_Config s) in
  apps_cache_miss (fst (loadAppsFromFile file w)) ->
  (forall j root, upstream w url = Response 200 (Some (PJson j)) -> dec_Root j Root_zero = Some root -> False) ->
  is_error (fst (AppService_GetApps s w)) = true /\ snd (AppService_GetApps s w) = after_get url w.
Proof.
  intros file url Hm Hno. rewrite (GetApps_miss s w Hm). fold url file.
  destruct (upstream w url) as [e|st body] eqn:Hu; [split; reflexivity|].
  destruct (negb (st =? 200)) eqn:Hst; [split; reflexivity|].
  destruct body as [[j|t]|]; try (split; reflexivity).
  destruct (dec_Root j Root_zero) as [root|] eqn:Hd; [|split; reflexivity].
  exfalso. apply (Hno j root); [|exact Hd].
  apply negb_false_iff, Z.eqb_eq in Hst. subst st. reflexivity.
Qed.

Lemma GetApps_miss_requests s w :
  apps_cache_miss (fst (loadAppsFromFile (AppsStorageFile (AppService_Config s)) w)) ->
  requests (snd (AppService_GetApps s w)) = AppsApiUrl (AppService_Config s) :: requests w.
Proof.
  intros Hm. rewrite (GetApps_miss s w Hm). unfold after_get.
  destruct (upstream w _) as [e|st [[j|t]|]]; simpl; try reflexivity;
    destruct (negb (st =? 200)); simpl; try reflexivity;
    destruct (dec_Root j Root_zero); simpl; try reflexivity.
  unfold bind, saveAppsToFile, saveDataToFile; simpl; destruct (writable w _); reflexivity.
Qed.

Lemma dec_Root_feed xs :
  dec_Root (feed_json xs) Root_zero =
  option_map (fun apps => mkRoot (mkRootFeed (Some apps))) (dec_elems App_UnmarshalJSON App_zero xs []).
Proof.
  unfold dec_Root, dec_RootFeed, dec_struct, feed_json. simpl. unfold fld, dec_goslice. simpl.
  destruct (dec_elems App_UnmarshalJSON App_zero xs []); reflexivity.
Qed.

Lemma dec_elems_fresh xs apps :
  dec_elems App_UnmarshalJSON App_zero xs [] = Some apps <->
  Forall2 (fun j a => App_UnmarshalJSON j App_zero = Some a) xs apps.
Proof.
  revert apps. induction xs as [|x xs IH]; intros apps; simpl.
  - split; [intros H; injection H as <-; constructor | intros H; inversion H; reflexivity].
  - split.
    + destruct (App_UnmarshalJSON x App_zero) as [a|] eqn:Ea; simpl; [|discriminate].
      destruct (dec_elems App_UnmarshalJSON App_zero xs []) as [vs|] eqn:Ev; simpl; [|discriminate].
      intros H. injection H as <-. constructor; [exact Ea|]. apply IH. reflexivity.
    + intros H. inversion H as [|? a ? vs Ha Hvs]; subst. rewrite Ha. simpl.
      apply IH in Hvs. rewrite Hvs. reflexivity.
Qed.

Lemma dec_elems_fail xs :
  (exists x, In x xs /\ App_UnmarshalJSON x App_zero = None) ->
  dec_elems App_UnmarshalJSON App_zero xs [] = None.
Proof.
  induction xs as [|x xs IH]; intros [y [Hin Hy]]; [destruct Hin|]. simpl.
  destruct Hin as [<-|Hin].
  - rewrite Hy. reflexivity.
  - destruct (App_UnmarshalJSON x App_zero); simpl; [|reflexivity].
    rewrite IH by eauto. reflexivity.
Qed.

Lemma dec_fields_skip {T} (fs : list (string * decoder T)) kvs cur :
  Forall (fun kv => lookup_field (fst kv) fs = None) kvs -> dec_fields fs kvs cur = Some cur.
Proof.
  induction 1 as [|[k v] kvs Hk _ IH]; [reflexivity|]. simpl in Hk |- *. rewrite Hk. exact IH.
Qed.

Lemma dec_fields_skip_one {T} n (d : decoder T) kvs cur :
  Forall (fun kv => fold_eqb (fst kv) n = false) kvs -> dec_fields [(n, d)] kvs cur = Some cur.
Proof.
  intros H. apply dec_fields_skip. eapply List.Forall_impl; [|exact H].
  intros [k v] Hk. simpl in *. rewrite Hk. reflexivity.
Qed.

(** One entry of the ["entry"] array that fails to decode makes the whole
    catalog fail, wherever the ["feed"] and ["entry"] keys stand among
    other keys. *)
Lemma dec_Root_bad_entry kvs1 fkvs1 xs fkvs2 kvs2 x :
  Forall (fun kv => fold_eqb (fst kv) "feed" = false) kvs1 ->
  Forall (fun kv => fold_eqb (fst kv) "entry" = false) fkvs1 ->
  In x xs -> App_UnmarshalJSON x App_zero = None ->
  dec_Root (catalog_json kvs1 fkvs1 xs fkvs2 kvs2) Root_zero = None.
Proof.
  intros H1 H2 Hin Hx.
  assert (Hd : dec_elems App_UnmarshalJSON App_zero xs [] = None) by (apply dec_elems_fail; eauto).
  unfold dec_Root, dec_struct, catalog_json. rewrite dec_fields_app, (dec_fields_skip_one _ _ _ _ H1).
  cbn [opt_bind dec_fields lookup_field].
  replace (fold_eqb "feed" "feed") with true by reflexivity.
  unfold fld at 1. cbn [Root_Feed Root_zero].
  unfold dec_RootFeed, dec_struct. rewrite dec_fields_app, (dec_fields_skip_one _ _ _ _ H2).
  cbn [opt_bind dec_fields lookup_field].
  replace (fold_eqb "entry" "entry") with true by reflexivity.
  unfold fld at 1, dec_goslice. cbn [RootFeed_Entries slice_elems]. rewrite Hd. reflexivity.
Qed.

(** C5 (amended): decoding an entry first decodes its other fields, and
    fails if they fail.  When they decode, the ["link"] value is decoded
    first as a single link object (which then wins), else as an array
    of link objects, and the entry fails exactly when both attempts
    fail.  An entry that fails makes the whole catalog fail to decode,
    and [GetApps] then fails on a cache miss. *)
Theorem C5_link_resolution :
  (forall data e,
    (dec_struct App_alias_fields data e = None -> App_UnmarshalJSON data e = None) /\
    (forall e1, dec_struct App_alias_fields data e = Some e1 ->
       (App_UnmarshalJSON data e = None <->
          unmarshal_raw dec_Link Link_zero (App_LinkRaw e1) = None /\
          unmarshal_raw (dec_slice dec_Link Link_zero) [] (App_LinkRaw e1) = None) /\
       (forall l, unmarshal_raw dec_Link Link_zero (App_LinkRaw e1) = Some l ->
          App_UnmarshalJSON data e = Some (set_App_LinkSingle e1 l)) /\
       (unmarshal_raw dec_Link Link_zero (App_LinkRaw e1) = None ->
        forall ls, unmarshal_raw (dec_slice dec_Link Link_zero) [] (App_LinkRaw e1) = Some ls ->
          App_UnmarshalJSON data e = Some (set_App_LinkMulti e1 ls)))) /\
  (forall kvs1 fkvs1 xs fkvs2 kvs2 x,
    Forall (fun kv => fold_eqb (fst kv) "feed" = false) kvs1 ->
    Forall (fun kv => fold_eqb (fst kv) "entry" = false) fkvs1 ->
    In x xs -> App_UnmarshalJSON x App_zero = None ->
    dec_Root (catalog_json kvs1 fkvs1 xs fkvs2 kvs2) Root_zero = None /\
    forall s w,
      apps_cache_miss (fst (loadAppsFromFile (AppsStorageFile (AppService_Config s)) w)) ->
      upstream w (AppsApiUrl (AppService_Config s)) =
        Response 200 (Some (PJson (catalog_json kvs1 fkvs1 xs fkvs2 kvs2))) ->
      fst (AppService_GetApps s w) = Error "failed to unmarshal JSON").
Proof.
  split.
  - intros data e. unfold App_UnmarshalJSON. split.
    + intros H. rewrite H. reflexivity.
    + intros e1 H. rewrite H. cbn [opt_bind].
      split; [|split].
      * destruct (unmarshal_raw dec_Link Link_zero (App_LinkRaw e1)) as [l|];
        [split; [discriminate|intros [Hc _]; discriminate]|].
        destruct (unmarshal_raw (dec_slice dec_Link Link_zero) [] (App_LinkRaw e1));
        split; [discriminate|intros [_ Hc]; discriminate|auto|reflexivity].
      * intros l Hl. rewrite Hl. reflexivity.
      * intros Hn ls Hls. rewrite Hn, Hls. reflexivity.
  - intros kvs1 fkvs1 xs fkvs2 kvs2 x H1 H2 Hin Hx.
    pose proof (dec_Root_bad_entry kvs1 fkvs1 xs fkvs2 kvs2 x H1 H2 Hin Hx) as Hd.
    split; [exact Hd|]. intros s w Hm Hu.
    rewrite (GetApps_miss s w Hm). rewrite Hu. cbn zeta. rewrite Hd. reflexivity.
Qed.

Lemma C5_link_resolution_witness :
  App_UnmarshalJSON array_link_entry App_zero =
    Some (set_App_LinkMulti
            (match dec_struct App_alias_fields array_link_entry App_zero with Some e => e | None => App_zero end)
            (match unmarshal_raw (dec_slice dec_Link Link_zero) []
                     (App_LinkRaw (match dec_struct App_alias_fields array_link_entry App_zero with
                                   | Some e => e | None => App_zero end)) with
             | Some ls => ls | None => [] end)) /\
  dec_Root bad_name_catalog Root_zero = None /\
  fst (AppService_GetApps test_service (test_world test_now bad_name_catalog)) = Error "failed to unmarshal JSON".
Proof.
  destruct C5_link_resolution as [Hent Hcat].
  destruct (Hent array_link_entry App_zero) as [_ He1].
  destruct (He1 _ ltac:(vm_compute; reflexivity)) as [_ [_ Hmulti]].
  split; [apply Hmulti; vm_compute; reflexivity|].
  destruct (Hcat [] [] [test_entry; app_json (JNumber "5") test_link] [] [] (app_json (JNumber "5") test_link)
              (List.Forall_nil _) (List.Forall_nil _) ltac:(simpl; tauto) ltac:(vm_compute; reflexivity))
    as [Hd Hg].
  split; [exact Hd|]. apply Hg; [vm_compute; exact I | reflexivity].
Defined.

(** X5: [GetApps] writes no file other than the apps cache, and writes
    that one only after a [200] response whose body decodes as a catalog,
    with the decoded entries; in every other case the files are left as
    they were. *)
Theorem X5_GetApps_file_effects (s : AppService) (w : World) :
  let file := AppsStorageFile (AppService_Config s) in
  let url := AppsApiUrl (AppService_Config s) in
  fs (snd (AppService_GetApps s w)) = fs w \/
  exists j root,
    upstream w url = Response 200 (Some (PJson j)) /\ dec_Root j Root_zero = Some root /\
    writable w file = true /\
    fs (snd (AppService_GetApps s w)) =
      <[file := PJson (marshal_slice marshal_App (RootFeed_Entries (Root_Feed root)))]> (fs w).
Proof.
  intros file url.
  destruct (fst (loadAppsFromFile file w)) as [[|app apps]|e] eqn:Hl.
  2: { left. rewrite (GetApps_hit s w app apps Hl). reflexivity. }
  all: assert (Hm : apps_cache_miss (fst (loadAppsFromFile file w))) by (rewrite Hl; exact I).
  all: destruct (upstream w url) as [e'|st [[j|t]|]] eqn:Hu;
    try (left; destruct (GetApps_miss_fail s w Hm) as [_ ->];
         [ intros j0 root0 Hu0; fold url in Hu0; rewrite Hu in Hu0; discriminate | reflexivity ]).
  all: destruct (Z.eqb_spec st 200) as [->|Hst];
    [| left; destruct (GetApps_miss_fail s w Hm) as [_ ->];
       [ intros j0 root0 Hu0; fold url in Hu0; rewrite Hu in Hu0; injection Hu0 as E _; lia | reflexivity ] ].
  all: destruct (dec_Root j Root_zero) as [root|] eqn:Hd;
    [| left; destruct (GetApps_miss_fail s w Hm) as [_ ->];
       [ intros j0 root0 Hu0 Hd0; fold url in Hu0; rewrite Hu in Hu0; injection Hu0 as ->; congruence | reflexivity ] ].
  all: rewrite (GetApps_miss_ok s w j root Hm Hu Hd); simpl; fold file.
  all: destruct (writable w file) eqn:Hw; [right; exists j, root; auto | left; reflexivity].
Qed.

(** X6: the result of [GetApps] does not depend on whether the cache can
    be written: a failed save of the fetched catalog is only logged. *)
Theorem X6_GetApps_ignores_save_failure (s : AppService) (w : World) (wr : string -> bool) :
  fst (AppService_GetApps s w) = fst (AppService_GetApps s (mkWorld (fs w) wr (clock w) (upstream w) (requests w))).
Proof.
  set (w' := mkWorld (fs w) wr (clock w) (upstream w) (requests w)).
  assert (Hl : loadAppsFromFile (AppsStorageFile (AppService_Config s)) w' =
               (fst (loadAppsFromFile (AppsStorageFile (AppService_Config s)) w), w')).
  { unfold loadAppsFromFile, bind, os_ReadFile. subst w'. simpl.
    destruct (fs w !! _) as [[j|t]|]; simpl; try reflexivity.
    destruct (dec_slice App_UnmarshalJSON App_zero j []); reflexivity. }
  destruct (fst (loadAppsFromFile (AppsStorageFile (AppService_Config s)) w)) as [[|app apps]|e] eqn:E.
  2: { rewrite (GetApps_hit s w app apps E), (GetApps_hit s w' app apps); [reflexivity|].
       rewrite Hl. reflexivity. }
  all: assert (Hm : apps_cache_miss (fst (loadAppsFromFile (AppsStorageFile (AppService_Config s)) w)))
         by (rewrite E; exact I).
  all: assert (Hm' : apps_cache_miss (fst (loadAppsFromFile (AppsStorageFile (AppService_Config s)) w')))
         by (rewrite Hl; exact I).
  all: rewrite (GetApps_miss s w Hm), (GetApps_miss s w' Hm'); subst w'; simpl.
  all: destruct (upstream w _) as [e'|st [[j|t]|]]; simpl; try reflexivity;
    destruct (negb (st =? 200)); simpl; try reflexivity;
    destruct (dec_Root j Root_zero); simpl; try reflexivity;
    unfold bind, saveAppsToFile, saveDataToFile; simpl;
    destruct (writable w _), (wr _); reflexivity.
Qed.

(** X7: after a cache miss whose fetch returns a [200] body that decodes
    as a catalog with a non-empty entry list, each entry the fresh decode
    of some JSON value, and a writable cache path, a second [GetApps]
    returns the same responses from the cache, without any request and
    without changing the world. *)
Theorem X7_GetApps_serves_saved_catalog (s : AppService) (w : World) (j : json) (root : Root)
    (xs : list json) :
  let file := AppsStorageFile (AppService_Config s) in
  let url := AppsApiUrl (AppService_Config s) in
  let entries := slice_elems (RootFeed_Entries (Root_Feed root)) in
  apps_cache_miss (fst (loadAppsFromFile file w)) ->
  upstream w url = Response 200 (Some (PJson j)) ->
  dec_Root j Root_zero = Some root ->
  Forall2 (fun x a => App_UnmarshalJSON x App_zero = Some a) xs entries ->
  entries <> [] ->
  writable w file = true ->
  fst (AppService_GetApps s w) = Ok (map (fun a => fst (ToAppResponse a)) entries) /\
  AppService_GetApps s (snd (AppService_GetApps s w)) = (fst (AppService_GetApps s w), snd (AppService_GetApps s w)).
Proof.
  intros file url entries Hm Hu Hd Hx Hne Hw.
  rewrite (GetApps_miss_ok s w _ _ Hm Hu Hd). fold file. rewrite Hw. simpl. split; [reflexivity|].
  unfold convertRootToAppResponse. subst entries. destruct (RootFeed_Entries (Root_Feed root)) as [apps|]; [|simpl in Hne; congruence].
  simpl in Hx, Hne |- *. destruct apps as [|app rest]; [congruence|].
  apply GetApps_hit. fold file.
  unfold loadAppsFromFile, bind, os_ReadFile. simpl. rewrite lookup_insert_eq.
  pose proof (dec_elems_App_marshal xs (app :: rest) Hx) as E.
  unfold marshal_slice, dec_slice. simpl in E |- *. rewrite E. reflexivity.
Qed.

(** The fresh-decode hypothesis of X7 is needed: with the ["entry"] key
    repeated, the second array is decoded into the apps of the first,
    which keep the link array of the first; the response read back from
    the cache differs from the one served. *)
Example repeated_entry_cache_differs :
  let w := test_world test_now repeated_entry_catalog in
  fst (AppService_GetApps test_service w) <> fst (AppService_GetApps test_service (snd (AppService_GetApps test_service w))) /\
  map (option_map AppResponse_URL)
    (match fst (AppService_GetApps test_service w) with Ok rs => rs | Error _ => [] end) = [Some "first"] /\
  map (option_map AppResponse_URL)
    (match fst (AppService_GetApps test_service (snd (AppService_GetApps test_service w))) with
     | Ok rs => rs | Error _ => [] end) = [Some "second"].
Proof. vm_compute. split; [discriminate|split; reflexivity]. Qed.

(** X8: an upstream catalog with an empty or missing entry list is never
    served from the cache: [GetApps] returns no response, and the next
    call requests the upstream URL again (whether or not the cache could
    be written). *)
Theorem X8_empty_catalog_refetched (s : AppService) (w : World) (j : json) (root : Root) :
  let file := AppsStorageFile (AppService_Config s) in
  let url := AppsApiUrl (AppService_Config s) in
  apps_cache_miss (fst (loadAppsFromFile file w)) ->
  upstream w url = Response 200 (Some (PJson j)) ->
  dec_Root j Root_zero = Some root ->
  slice_elems (RootFeed_Entries (Root_Feed root)) = [] ->
  fst (AppService_GetApps s w) = Ok [] /\
  requests (snd (AppService_GetApps s (snd (AppService_GetApps s w)))) = url :: url :: requests w.
Proof.
  intros file url Hm Hu Hd He.
  rewrite (GetApps_miss_ok s w _ _ Hm Hu Hd). fold file. simpl. split.
  { unfold convertRootToAppResponse. rewrite He. reflexivity. }
  rewrite GetApps_miss_requests; [reflexivity|]. simpl. fold file.
  destruct (writable w file).
  - unfold loadAppsFromFile, bind, os_ReadFile. simpl. rewrite lookup_insert_eq.
    destruct (RootFeed_Entries (Root_Feed root)) as [l|]; simpl in He |- *; [subst l|]; exact I.
  - unfold loadAppsFromFile, bind, os_ReadFile in Hm |- *. simpl in Hm |- *.
    destruct (fs w !! file) as [[j'|t]|]; try destruct (dec_slice App_UnmarshalJSON App_zero j' []); exact Hm.
Qed.

(** X9: on a cache miss, a [200] body that does not decode as a catalog
    makes [GetApps] fail as a whole, and no file is written; a catalog
    with one entry that fails to decode is such a body. *)
Theorem X9_bad_entry_fails_GetApps :
  (forall (s : AppService) (w : World) (j : json),
     apps_cache_miss (fst (loadAppsFromFile (AppsStorageFile (AppService_Config s)) w)) ->
     upstream w (AppsApiUrl (AppService_Config s)) = Response 200 (Some (PJson j)) ->
     dec_Root j Root_zero = None ->
     fst (AppService_GetApps s w) = Error "failed to unmarshal JSON" /\ fs (snd (AppService_GetApps s w)) = fs w) /\
  (forall kvs1 fkvs1 xs fkvs2 kvs2 x,
     Forall (fun kv => fold_eqb (fst kv) "feed" = false) kvs1 ->
     Forall (fun kv => fold_eqb (fst kv) "entry" = false) fkvs1 ->
     In x xs -> App_UnmarshalJSON x App_zero = None ->
     dec_Root (catalog_json kvs1 fkvs1 xs fkvs2 kvs2) Root_zero = None).
Proof.
  split; [|exact dec_Root_bad_entry].
  intros s w j Hm Hu Hd.
  rewrite (GetApps_miss s w Hm). rewrite Hu. cbn zeta. rewrite Hd. split; reflexivity.
Qed.

(** X10: an entry with no ["link"] key fails [App.UnmarshalJSON] (both
    decodes of the nil [RawMessage] fail), even when its other fields
    decode; the same entry with ["link": null] decodes, with an empty URL
    in its response. *)
Theorem X10_entry_without_link (kvs : list (string * json)) (base : App) :
  Forall (fun kv => fold_eqb (fst kv) "link" = false) kvs ->
  dec_fields App_alias_fields kvs App_zero = Some base ->
  App_UnmarshalJSON (JObject kvs) App_zero = None /\
  exists a, App_UnmarshalJSON (JObject (kvs ++ [("link", JNull)])) App_zero = Some a /\
            option_map AppResponse_URL (fst (ToAppResponse a)) = Some "".
Proof.
  intros Hk Hb. split.
  - pose proof (alias_LinkRaw_commute kvs App_zero None Hk) as Hc.
    change (set_App_LinkRaw App_zero None) with App_zero in Hc.
    rewrite Hb in Hc. simpl in Hc. injection Hc as Hc.
    assert (Hr : App_LinkRaw base = None) by (rewrite Hc; reflexivity).
    unfold App_UnmarshalJSON, dec_struct. rewrite Hb. simpl. rewrite Hr. reflexivity.
  - assert (Hb' : dec_fields App_alias_fields (kvs ++ []) App_zero = Some base) by (rewrite app_nil_r; exact Hb).
    pose proof (alias_decode_with_link kvs [] JNull base (List.Forall_nil _) Hb') as Hd.
    destruct (alias_links kvs App_zero base Hb) as [_ Hm]. simpl in Hm.
    eexists. split.
    + unfold App_UnmarshalJSON. rewrite Hd. simpl. reflexivity.
    + unfold ToAppResponse. simpl. destruct base; simpl in *. subst. reflexivity.
Qed.

(* ------------------------------------------------------------------ *)
(** ** [AppListHandler] and the front end                                 *)
(* ------------------------------------------------------------------ *)

Lemma AppListHandler_unfold (h : Handlers AppService) w :
  AppListHandler h w =
    (let '(apps, w1) := AppService_GetApps (Handlers_AppService h) w in
     match apps with
     | Error e => (http_Error ("Error fetching apps: " +:+ e) StatusInternalServerError, w1)
     | Ok rs => (mkHttpResponse StatusOK (PJson (marshal_AppResponses rs)), w1)
     end).
Proof.
  unfold AppListHandler, bind. cbn [GetApps AppService_AppServiceInterface].
  destruct (AppService_GetApps (Handlers_AppService h) w) as [[rs|e] w1]; reflexivity.
Qed.

(** X11: when the apps cache holds a non-empty list, [/app/list] answers
    [200] with the cached entries, makes no request and changes nothing,
    whatever the upstream would answer. *)
Theorem X11_app_list_from_cache (h : Handlers AppService) (w : World) (app : App) (apps : list App) :
  fst (loadAppsFromFile (AppsStorageFile (AppService_Config (Handlers_AppService h))) w) = Ok (app :: apps) ->
  AppListHandler h w =
    (mkHttpResponse StatusOK (PJson (marshal_AppResponses (map (fun a => fst (ToAppResponse a)) (app :: apps)))), w).
Proof.
  intros Hl. rewrite AppListHandler_unfold, (GetApps_hit _ w app apps Hl). reflexivity.
Qed.

(** X12: on a cache miss, an upstream catalog whose entry list is
    empty or missing makes [/app/list] answer [200] with the body [null],
    not an empty array. *)
Theorem X12_app_list_empty_catalog_is_null (h : Handlers AppService) (w : World) (j : json) (root : Root) :
  let s := Handlers_AppService h in
  apps_cache_miss (fst (loadAppsFromFile (AppsStorageFile (AppService_Config s)) w)) ->
  upstream w (AppsApiUrl (AppService_Config s)) = Response 200 (Some (PJson j)) ->
  dec_Root j Root_zero = Some root ->
  slice_elems (RootFeed_Entries (Root_Feed root)) = [] ->
  fst (AppListHandler h w) = mkHttpResponse StatusOK (PJson JNull).
Proof.
  intros s Hm Hu Hd He.
  rewrite AppListHandler_unfold. fold s. rewrite (GetApps_miss_ok s w _ _ Hm Hu Hd).
  unfold convertRootToAppResponse. rewrite He. reflexivity.
Qed.

Lemma GetApps_Ok_responses s w rs :
  fst (AppService_GetApps s w) = Ok rs -> Forall (fun o => exists a, o = fst (ToAppResponse a)) rs.
Proof.
  assert (Hmap : forall l rs', Ok (map (fun a => fst (ToAppResponse a)) l) = Ok rs' ->
                               Forall (fun o => exists a, o = fst (ToAppResponse a)) rs').
  { intros l rs' E. injection E as <-. apply List.Forall_forall. intros o Ho.
    apply in_map_iff in Ho. destruct Ho as [a [<- _]]. eauto. }
  destruct (fst (loadAppsFromFile (AppsStorageFile (AppService_Config s)) w)) as [[|app apps]|e] eqn:Hl.
  2: { rewrite (GetApps_hit s w app apps Hl). cbn [fst]. apply Hmap. }
  all: assert (Hm : apps_cache_miss (fst (loadAppsFromFile (AppsStorageFile (AppService_Config s)) w)))
         by (rewrite Hl; exact I).
  all: rewrite (GetApps_miss s w Hm).
  all: destruct (upstream w _) as [e'|st [[j|t]|]]; simpl; try discriminate;
    destruct (negb (st =? 200)); simpl; try discriminate;
    destruct (dec_Root j Root_zero); simpl; try discriminate;
    unfold bind, saveAppsToFile, saveDataToFile; simpl;
    destruct (writable w _); simpl; apply Hmap.
Qed.

(** C10: [ToAppResponse] is total: for every [App] it returns a non-nil
    response and a nil error; hence the catalog responses built by
    [convertRootToAppResponse], and every list [GetApps] returns, contain
    no nil entry.  [GetApps] fails only on a cache miss whose fetch has
    no [200] body that decodes as a catalog, and [/app/list] answers
    [500] exactly when [GetApps] fails. *)
Theorem C10_ToAppResponse_total :
  (forall a : App, exists r, ToAppResponse a = (Some r, None)) /\
  (forall root : Root, Forall (fun o => o <> None) (convertRootToAppResponse root)) /\
  (forall s w rs, fst (AppService_GetApps s w) = Ok rs -> Forall (fun o => o <> None) rs) /\
  (forall s w e, fst (AppService_GetApps s w) = Error e ->
     apps_cache_miss (fst (loadAppsFromFile (AppsStorageFile (AppService_Config s)) w)) /\
     ~ (exists j root, upstream w (AppsApiUrl (AppService_Config s)) = Response 200 (Some (PJson j)) /\
                       dec_Root j Root_zero = Some root)) /\
  (forall (h : Handlers AppService) w,
     StatusCode (fst (AppListHandler h w)) = StatusInternalServerError <->
     is_error (fst (AppService_GetApps (Handlers_AppService h) w)) = true).
Proof.
  split; [|split; [|split; [|split]]].
  - intros a. eexists. reflexivity.
  - intros root. unfold convertRootToAppResponse.
    induction (slice_elems (RootFeed_Entries (Root_Feed root))) as [|a l IH]; simpl; constructor;
      [discriminate|exact IH].
  - intros s w rs H. apply GetApps_Ok_responses in H.
    eapply List.Forall_impl; [|exact H]. intros o [a ->]. discriminate.
  - intros s w e H.
    destruct (fst (loadAppsFromFile (AppsStorageFile (AppService_Config s)) w)) as [[|app apps]|e'] eqn:Hl.
    2: { rewrite (GetApps_hit s w app apps Hl) in H. discriminate. }
    all: assert (Hm : apps_cache_miss (fst (loadAppsFromFile (AppsStorageFile (AppService_Config s)) w)))
           by (rewrite Hl; exact I).
    all: rewrite Hl in Hm; split; [exact Hm|]; rewrite <- Hl in Hm.
    all: intros [j [root [Hu Hd]]]; rewrite (GetApps_miss_ok s w j root Hm Hu Hd) in H; discriminate.
  - intros h w. rewrite AppListHandler_unfold.
    destruct (AppService_GetApps (Handlers_AppService h) w) as [[rs|e] w1]; simpl;
      split; first [reflexivity | discriminate].
Qed.

(** X13: every app card of the front end's [AppList] built from a [200]
    answer of [/app/list] shows no artist and no release date: the
    component reads [app.artistName] and [app.releaseDate], keys the
    backend never sends (it sends [author] and [release_date]); the name
    is always present. *)
Theorem X13_app_card_reads_missing_keys (h : Handlers AppService) (w : World) (items : list json) :
  fst (AppListHandler h w) = mkHttpResponse StatusOK (PJson (JArray items)) ->
  Forall (fun it => AppCard_Artist (AppList_card it) = None /\ AppCard_Released (AppList_card it) = None /\
                    exists n, AppCard_Name (AppList_card it) = Some (JString n)) items.
Proof.
  rewrite AppListHandler_unfold.
  pose proof (GetApps_Ok_responses (Handlers_AppService h) w) as Hresp.
  destruct (AppService_GetApps (Handlers_AppService h) w) as [[rs|e] w1]; simpl; [|discriminate].
  specialize (Hresp rs eq_refl).
  intros H. unfold marshal_AppResponses in H.
  destruct rs as [|o rs]; [discriminate|].
  assert (Hi : items = map (fun o => match o with Some r => marshal_AppResponse r | None => JNull end) (o :: rs))
    by congruence.
  clear H. subst items.
  apply List.Forall_forall. intros it Hit. apply in_map_iff in Hit. destruct Hit as [o' [<- Hin]].
  rewrite List.Forall_forall in Hresp. destruct (Hresp o' Hin) as [a ->].
  simpl. split; [reflexivity|]. split; [reflexivity|]. eexists. reflexivity.
Qed.

(* ------------------------------------------------------------------ *)
(** ** [LoadConfig] and the client timeout                                *)
(* ------------------------------------------------------------------ *)

Lemma sign3_body c s' neg signed body :
  (match String c s' with
   | String "-" b => (true, true, b)
   | String "+" b => (false, true, b)
   | _ => (false, false, String c s')
   end) = (neg, signed, body) -> body = String c s' \/ body = s'.
Proof.
  destruct c as [[] [] [] [] [] [] [] []]; simpl; intros H; injection H; intros; subst; auto.
Qed.

Lemma sign2_body c s' neg body :
  (match String c s' with
   | String "-" b => (true, b)
   | String "+" b => (false, b)
   | _ => (false, String c s')
   end) = (neg, body) -> body = String c s' \/ body = s'.
Proof.
  destruct c as [[] [] [] [] [] [] [] []]; simpl; intros H; injection H; intros; subst; auto.
Qed.

Lemma isDigit_false c : isDigit c = false -> digit_val c = None.
Proof. unfold isDigit. destruct (digit_val c); [discriminate|reflexivity]. Qed.

Lemma ParseUint10_no_digit_head t :
  match t with EmptyString => True | String c _ => isDigit c = false end ->
  ParseUint10 t = (0, Some false).
Proof.
  destruct t as [|c t]; [reflexivity|]. intros Hc. simpl. rewrite (isDigit_false c Hc). reflexivity.
Qed.

Lemma Atoi_go_no_digit s :
  Forall (fun c => isDigit c = false) (String.list_ascii_of_string s) -> Atoi_go s = (0, Some false).
Proof.
  destruct s as [|c s']; [reflexivity|]. intros H. simpl in H.
  inversion H as [|? ? Hc Hs]; subst.
  assert (Hs' : match s' with EmptyString => True | String c' _ => isDigit c' = false end).
  { destruct s' as [|c' s'']; [exact I|]. simpl in Hs. inversion Hs; assumption. }
  assert (Hhd : forall body, body = String c s' \/ body = s' ->
            match body with EmptyString => True | String c' _ => isDigit c' = false end).
  { intros body [-> | ->]; assumption. }
  unfold Atoi_go. destruct (_ && _).
  - destruct (match String c s' with
              | String "-" b => (true, true, b)
              | String "+" b => (false, true, b)
              | _ => (false, false, String c s')
              end) as [[neg signed] body] eqn:E.
    apply sign3_body, Hhd in E.
    destruct body as [|c0 b0]; [reflexivity|]. simpl. rewrite (isDigit_false c0 E). reflexivity.
  - unfold ParseInt10.
    destruct (match String c s' with
              | String "-" b => (true, b)
              | String "+" b => (false, b)
              | _ => (false, String c s')
              end) as [neg body] eqn:E.
    apply sign2_body, Hhd, ParseUint10_no_digit_head in E. rewrite E. reflexivity.
Qed.

(** X14: [LoadConfig] fails exactly when [APPLE_API_URL] or [PORT] is
    empty (all other variables may be empty), and its message then names
    one of the empty ones. *)
Theorem X14_LoadConfig_required (getenv : string -> string) (apple_first : bool) :
  ((exists e, LoadConfig getenv apple_first = Error e) <->
   getenv "APPLE_API_URL" = "" \/ getenv "PORT" = "") /\
  (forall e, LoadConfig getenv apple_first = Error e ->
   exists key, In key ["APPLE_API_URL"; "PORT"] /\ getenv key = "" /\
               e = "required environment variable " +:+ key +:+ " is not set").
Proof.
  unfold LoadConfig, required_keys.
  destruct (String.eqb_spec (getenv "APPLE_API_URL") "") as [Ha|Ha];
  destruct (String.eqb_spec (getenv "PORT") "") as [Hp|Hp];
  destruct apple_first; simpl;
  rewrite ?Ha, ?Hp; simpl;
  repeat match goal with
         | H : getenv ?k <> "" |- _ =>
             let E := fresh in assert (E : String.eqb (getenv k) "" = false)
               by (apply String.eqb_neq; exact H); rewrite E
         end; simpl;
  (split; [split; [intros [e He]; try discriminate; tauto
                  | intros Hor; first [eexists; reflexivity | destruct Hor; contradiction]]
          | intros e He; try discriminate; injection He as <-;
            first [ exists "APPLE_API_URL"; split; [simpl; tauto | split; [assumption | reflexivity]]
                  | exists "PORT"; split; [simpl; tauto | split; [assumption | reflexivity]] ]]).
Qed.

(** X15: when both [APPLE_API_URL] and [PORT] are empty, the message of
    [LoadConfig] depends on Go's map iteration order: it names whichever
    key is visited first. *)
Theorem X15_LoadConfig_message_order (getenv : string -> string) :
  getenv "APPLE_API_URL" = "" -> getenv "PORT" = "" ->
  LoadConfig getenv true = Error "required environment variable APPLE_API_URL is not set" /\
  LoadConfig getenv false = Error "required environment variable PORT is not set".
Proof.
  intros Ha Hp. unfold LoadConfig, required_keys. simpl. rewrite Ha, Hp. split; reflexivity.
Qed.

(** X16: [LoadConfig] accepts a [PORT] or [REQUEST_TIMEOUT] that holds no
    digit: the [Atoi] error is dropped and the value is 0, so the server
    is told to listen on port 0 and the HTTP client gets no deadline. *)
Theorem X16_LoadConfig_non_numeric_is_zero (getenv : string -> string) (apple_first : bool) :
  getenv "APPLE_API_URL" <> "" -> getenv "PORT" <> "" ->
  exists cfg, LoadConfig getenv apple_first = Ok cfg /\
    (Forall (fun c => isDigit c = false) (String.list_ascii_of_string (getenv "PORT")) ->
     FullConfig_Port cfg = 0) /\
    (Forall (fun c => isDigit c = false) (String.list_ascii_of_string (getenv "REQUEST_TIMEOUT")) ->
     main_client_Timeout cfg = 0).
Proof.
  intros Ha Hp.
  apply String.eqb_neq in Ha. apply String.eqb_neq in Hp.
  unfold LoadConfig, required_keys.
  assert (Hc : check_required getenv (if apple_first then ["APPLE_API_URL"; "PORT"] else ["PORT"; "APPLE_API_URL"]) = None)
    by (destruct apple_first; simpl; rewrite Ha, Hp; reflexivity).
  rewrite Hc. eexists. split; [reflexivity|]. split.
  - intros Hd. simpl. unfold Atoi_value. rewrite (Atoi_go_no_digit _ Hd). reflexivity.
  - intros Hd. unfold main_client_Timeout. simpl. unfold Atoi_value. rewrite (Atoi_go_no_digit _ Hd). reflexivity.
Qed.

(** X17: for a non-negative [TimeoutSecs], the client [Timeout] is
    [TimeoutSecs * 10^16] nanoseconds exactly when [TimeoutSecs <= 922];
    at 923 the 64-bit product wraps to a negative duration (no deadline). *)
Theorem X17_client_timeout_scale (cfg : FullConfig) :
  0 <= FullConfig_TimeoutSecs cfg ->
  (main_client_Timeout cfg = FullConfig_TimeoutSecs cfg * 10000000000000000 <->
   FullConfig_TimeoutSecs cfg <= 922) /\
  (FullConfig_TimeoutSecs cfg = 923 -> main_client_Timeout cfg < 0).
Proof.
  intros H0. unfold main_client_Timeout, int64_wrap.
  split.
  - split.
    + intros E. pose proof (Z.mod_pos_bound (FullConfig_TimeoutSecs cfg * 10000000000000000 + 2 ^ 63) (2 ^ 64)) as B.
      assert (Hp : 0 < 2 ^ 64) by reflexivity. specialize (B Hp). change (2 ^ 63) with 9223372036854775808 in E, B.
      change (2 ^ 64) with 18446744073709551616 in E, B. lia.
    + intros Hle. rewrite Z.mod_small; [lia|]. change (2 ^ 63) with 9223372036854775808.
      change (2 ^ 64) with 18446744073709551616. lia.
  - intros E. rewrite E. vm_compute. reflexivity.
Qed.

(** Witnesses. *)
Lemma X7_GetApps_serves_saved_catalog_witness :
  apps_cache_miss (fst (loadAppsFromFile (AppsStorageFile (AppService_Config test_service)) catalog_world)) /\
  upstream catalog_world (AppsApiUrl (AppService_Config test_service)) = Response 200 (Some (PJson (feed_json [test_entry]))) /\
  dec_Root (feed_json [test_entry]) Root_zero = Some catalog_root /\
  Forall2 (fun x a => App_UnmarshalJSON x App_zero = Some a) [test_entry] (slice_elems (RootFeed_Entries (Root_Feed catalog_root))) /\
  slice_elems (RootFeed_Entries (Root_Feed catalog_root)) <> [] /\
  writable catalog_world (AppsStorageFile (AppService_Config test_service)) = true /\
  fst (AppService_GetApps test_service catalog_world) =
    Ok (map (fun a => fst (ToAppResponse a)) (slice_elems (RootFeed_Entries (Root_Feed catalog_root)))) /\
  AppService_GetApps test_service (snd (AppService_GetApps test_service catalog_world)) =
    (fst (AppService_GetApps test_service catalog_world), snd (AppService_GetApps test_service catalog_world)).
Proof.
  assert (Hm : apps_cache_miss (fst (loadAppsFromFile (AppsStorageFile (AppService_Config test_service)) catalog_world)))
    by (vm_compute; exact I).
  assert (Hu : upstream catalog_world (AppsApiUrl (AppService_Config test_service)) = Response 200 (Some (PJson (feed_json [test_entry]))))
    by reflexivity.
  assert (Hd : dec_Root (feed_json [test_entry]) Root_zero = Some catalog_root) by (vm_compute; reflexivity).
  assert (Hx : Forall2 (fun x a => App_UnmarshalJSON x App_zero = Some a) [test_entry]
                 (slice_elems (RootFeed_Entries (Root_Feed catalog_root)))).
  { replace (slice_elems (RootFeed_Entries (Root_Feed catalog_root))) with [test_app] by (vm_compute; reflexivity).
    constructor; [vm_compute; reflexivity | constructor]. }
  assert (Hne : slice_elems (RootFeed_Entries (Root_Feed catalog_root)) <> []) by (vm_compute; discriminate).
  assert (Hw : writable catalog_world (AppsStorageFile (AppService_Config test_service)) = true) by reflexivity.
  split; [exact Hm|]. split; [exact Hu|]. split; [exact Hd|]. split; [exact Hx|]. split; [exact Hne|]. split; [exact Hw|].
  exact (X7_GetApps_serves_saved_catalog test_service catalog_world _ catalog_root [test_entry] Hm Hu Hd Hx Hne Hw).
Defined.

Lemma X8_empty_catalog_refetched_witness :
  apps_cache_miss (fst (loadAppsFromFile (AppsStorageFile (AppService_Config test_service)) (test_world test_now (feed_json [])))) /\
  upstream (test_world test_now (feed_json [])) (AppsApiUrl (AppService_Config test_service)) = Response 200 (Some (PJson (feed_json []))) /\
  dec_Root (feed_json []) Root_zero = Some (mkRoot (mkRootFeed (Some []))) /\
  fst (AppService_GetApps test_service (test_world test_now (feed_json []))) = Ok [] /\
  requests (snd (AppService_GetApps test_service (snd (AppService_GetApps test_service (test_world test_now (feed_json []))))))
    = AppsApiUrl (AppService_Config test_service) :: AppsApiUrl (AppService_Config test_service) :: requests (test_world test_now (feed_json [])).
Proof.
  assert (Hm : apps_cache_miss (fst (loadAppsFromFile (AppsStorageFile (AppService_Config test_service)) (test_world test_now (feed_json [])))))
    by (vm_compute; exact I).
  assert (Hu : upstream (test_world test_now (feed_json [])) (AppsApiUrl (AppService_Config test_service)) = Response 200 (Some (PJson (feed_json []))))
    by reflexivity.
  assert (Hd : dec_Root (feed_json []) Root_zero = Some (mkRoot (mkRootFeed (Some [])))) by reflexivity.
  split; [exact Hm|]. split; [exact Hu|]. split; [exact Hd|].
  exact (X8_empty_catalog_refetched test_service (test_world test_now (feed_json [])) _ _ Hm Hu Hd eq_refl).
Defined.

Lemma X9_bad_entry_fails_GetApps_witness :
  dec_Root bad_name_catalog Root_zero = None /\
  fst (AppService_GetApps test_service (test_world test_now bad_name_catalog)) = Error "failed to unmarshal JSON" /\
  fs (snd (AppService_GetApps test_service (test_world test_now bad_name_catalog))) = fs (test_world test_now bad_name_catalog).
Proof.
  destruct X9_bad_entry_fails_GetApps as [Hg Hcat].
  assert (Hd : dec_Root bad_name_catalog Root_zero = None).
  { exact (Hcat [] [] [test_entry; app_json (JNumber "5") test_link] [] [] (app_json (JNumber "5") test_link)
             (List.Forall_nil _) (List.Forall_nil _) ltac:(simpl; tauto) ltac:(vm_compute; reflexivity)). }
  split; [exact Hd|].
  apply (Hg test_service (test_world test_now bad_name_catalog) bad_name_catalog); [vm_compute; exact I | reflexivity | exact Hd].
Defined.

Lemma X10_entry_without_link_witness :
  Forall (fun kv => fold_eqb (fst kv) "link" = false) no_link_kvs /\
  dec_fields App_alias_fields no_link_kvs App_zero = Some no_link_base /\
  App_UnmarshalJSON (JObject no_link_kvs) App_zero = None /\
  exists a, App_UnmarshalJSON (JObject (no_link_kvs ++ [("link", JNull)])) App_zero = Some a /\
            option_map AppResponse_URL (fst (ToAppResponse a)) = Some "".
Proof.
  assert (Hk : Forall (fun kv => fold_eqb (fst kv) "link" = false) no_link_kvs)
    by (constructor; [vm_compute; reflexivity | constructor]).
  assert (Hb : dec_fields App_alias_fields no_link_kvs App_zero = Some no_link_base) by (vm_compute; reflexivity).
  split; [exact Hk|]. split; [exact Hb|].
  exact (X10_entry_without_link no_link_kvs no_link_base Hk Hb).
Defined.

Lemma X11_app_list_from_cache_witness :
  let w := mkWorld (<[AppsStorageFile test_config := PJson (marshal_slice marshal_App (Some [test_app]))]> ∅)
                   (fun _ => true) test_now (fun _ => TransportError "connection refused") [] in
  fst (loadAppsFromFile (AppsStorageFile (AppService_Config (Handlers_AppService test_handlers))) w) = Ok [test_app] /\
  AppListHandler test_handlers w =
    (mkHttpResponse StatusOK (PJson (marshal_AppResponses (map (fun a => fst (ToAppResponse a)) [test_app]))), w).
Proof.
  intros w.
  assert (Hl : fst (loadAppsFromFile (AppsStorageFile (AppService_Config (Handlers_AppService test_handlers))) w) = Ok [test_app])
    by (vm_compute; reflexivity).
  split; [exact Hl|]. exact (X11_app_list_from_cache test_handlers w test_app [] Hl).
Defined.

Lemma X12_app_list_empty_catalog_is_null_witness :
  apps_cache_miss (fst (loadAppsFromFile (AppsStorageFile (AppService_Config (Handlers_AppService test_handlers))) (test_world test_now (feed_json [])))) /\
  upstream (test_world test_now (feed_json [])) (AppsApiUrl (AppService_Config (Handlers_AppService test_handlers))) = Response 200 (Some (PJson (feed_json []))) /\
  dec_Root (feed_json []) Root_zero = Some (mkRoot (mkRootFeed (Some []))) /\
  fst (AppListHandler test_handlers (test_world test_now (feed_json []))) = mkHttpResponse StatusOK (PJson JNull).
Proof.
  assert (Hm : apps_cache_miss (fst (loadAppsFromFile (AppsStorageFile (AppService_Config (Handlers_AppService test_handlers))) (test_world test_now (feed_json [])))))
    by (vm_compute; exact I).
  assert (Hu : upstream (test_world test_now (feed_json [])) (AppsApiUrl (AppService_Config (Handlers_AppService test_handlers))) = Response 200 (Some (PJson (feed_json []))))
    by reflexivity.
  assert (Hd : dec_Root (feed_json []) Root_zero = Some (mkRoot (mkRootFeed (Some [])))) by reflexivity.
  split; [exact Hm|]. split; [exact Hu|]. split; [exact Hd|].
  exact (X12_app_list_empty_catalog_is_null test_handlers (test_world test_now (feed_json [])) _ _ Hm Hu Hd eq_refl).
Defined.

Lemma X13_app_card_reads_missing_keys_witness :
  let items := match ResponseBody (fst (AppListHandler test_handlers catalog_world)) with
               | PJson (JArray xs) => xs | _ => [] end in
  fst (AppListHandler test_handlers catalog_world) = mkHttpResponse StatusOK (PJson (JArray items)) /\
  Forall (fun it => AppCard_Artist (AppList_card it) = None /\ AppCard_Released (AppList_card it) = None /\
                    exists n, AppCard_Name (AppList_card it) = Some (JString n)) items.
Proof.
  intros items.
  assert (H : fst (AppListHandler test_handlers catalog_world) = mkHttpResponse StatusOK (PJson (JArray items)))
    by (vm_compute; reflexivity).
  split; [exact H|]. exact (X13_app_card_reads_missing_keys test_handlers catalog_world items H).
Defined.

Lemma X15_LoadConfig_message_order_witness :
  (fun _ : string => "") "APPLE_API_URL" = "" /\ (fun _ : string => "") "PORT" = "" /\
  LoadConfig (fun _ => "") true = Error "required environment variable APPLE_API_URL is not set" /\
  LoadConfig (fun _ => "") false = Error "required environment variable PORT is not set".
Proof.
  split; [reflexivity|]. split; [reflexivity|].
  exact (X15_LoadConfig_message_order (fun _ => "") eq_refl eq_refl).
Defined.

Lemma X16_LoadConfig_non_numeric_is_zero_witness :
  test_env "APPLE_API_URL" <> "" /\ test_env "PORT" <> "" /\
  exists cfg, LoadConfig test_env true = Ok cfg /\
    (Forall (fun c => isDigit c = false) (String.list_ascii_of_string (test_env "PORT")) ->
     FullConfig_Port cfg = 0) /\
    (Forall (fun c => isDigit c = false) (String.list_ascii_of_string (test_env "REQUEST_TIMEOUT")) ->
     main_client_Timeout cfg = 0).
Proof.
  assert (Ha : test_env "APPLE_API_URL" <> "") by (vm_compute; discriminate).
  assert (Hp : test_env "PORT" <> "") by (vm_compute; discriminate).
  split; [exact Ha|]. split; [exact Hp|].
  exact (X16_LoadConfig_non_numeric_is_zero test_env true Ha Hp).
Defined.

Lemma X17_client_timeout_scale_witness :
  let cfg := mkFullConfig 8080 test_config 923 (mkLoggerConfig "info" "") in
  0 <= FullConfig_TimeoutSecs cfg /\
  (main_client_Timeout cfg = FullConfig_TimeoutSecs cfg * 10000000000000000 <->
   FullConfig_TimeoutSecs cfg <= 922) /\
  (FullConfig_TimeoutSecs cfg = 923 -> main_client_Timeout cfg < 0).
Proof.
  intros cfg. assert (H0 : 0 <= FullConfig_TimeoutSecs cfg) by (simpl; lia).
  split; [exact H0|]. exact (X17_client_timeout_scale cfg H0).
Defined.
